(** * plugin-acr: tag templates, registry endpoint, authentication and publish loop

    A shallow embedding of [plugin.go] and [client.go] of the ACR plugin.
    Go strings are byte strings and are modelled by [string]; Go's [error]
    is modelled by the text that [Error()] renders, [nil] by [None].  The
    external processes the plugin starts are recorded in a [World]; their
    outcomes come from a machine [OS] over which every statement
    quantifies.  The SDK's configuration parser is an interface. *)

From Stdlib Require Import Ascii String List Bool Arith Lia.
From stdpp Require Import base gmap strings list pretty.

Set Warnings "-register-all".

#[local] Arguments String.append !s1 s2 : simpl nomatch.

(** ** The functions of Go's [strings] package that the plugin calls *)

Module GoStrings.

(** [strings.HasPrefix(s, prefix)]:
    [len(s) >= len(prefix) && s[:len(prefix)] == prefix]. *)
Fixpoint HasPrefix (s prefix : string) {struct prefix} : bool :=
  match prefix, s with
  | EmptyString, _ => true
  | String _ _, EmptyString => false
  | String a prefix', String b s' => Ascii.eqb a b && HasPrefix s' prefix'
  end.

(** [strings.HasSuffix(s, suffix)]:
    [len(s) >= len(suffix) && s[len(s)-len(suffix):] == suffix]. *)
Definition HasSuffix (s suffix : string) : bool :=
  (String.length suffix <=? String.length s)%nat
  && String.eqb
       (substring (String.length s - String.length suffix)
                  (String.length suffix) s)
       suffix.

(** [strings.Contains(s, substr)]: [substr] occurs at some index of [s]. *)
Fixpoint Contains (s substr : string) : bool :=
  match s with
  | EmptyString => HasPrefix s substr
  | String _ s' => HasPrefix s substr || Contains s' substr
  end.

(** The scan of [strings.ReplaceAll] for a non-empty [old]: matches are
    taken leftmost first and do not overlap.  [skip] counts the bytes of
    the match just replaced that are still to be passed over. *)
Fixpoint replaceScan (old new : string) (skip : nat) (s : string) : string :=
  match s with
  | EmptyString => EmptyString
  | String c s' =>
      match skip with
      | S k => replaceScan old new k s'
      | O =>
          if HasPrefix s old
          then new +:+ replaceScan old new (String.length old - 1) s'
          else String c (replaceScan old new 0 s')
      end
  end.

(** [strings.ReplaceAll(s, old, new)].  The plugin only passes non-empty
    literals as [old]; Go's treatment of an empty [old] (an insertion at
    every rune boundary) is outside this model, which then returns [s]. *)
Definition ReplaceAll (s old new : string) : string :=
  match old with
  | EmptyString => s
  | String _ _ => replaceScan old new 0 s
  end.

(** [n] leading bytes removed: the Go slice [s[n:]], clamped at the end. *)
Fixpoint drop (n : nat) (s : string) : string :=
  match n, s with
  | O, _ => s
  | S _, EmptyString => EmptyString
  | S n', String _ s' => drop n' s'
  end.

(** No non-empty suffix of [u] starts with [q] or is the start of [q]:
    an occurrence of [q] cannot begin inside an occurrence of [u]. *)
Fixpoint apart (u q : string) : bool :=
  match u with
  | EmptyString => true
  | String _ u' => negb (HasPrefix u q) && negb (HasPrefix q u) && apart u' q
  end.

End GoStrings.

Import GoStrings.

(** ** The SDK types the plugin exchanges with its host *)

(** Go's [any], restricted to the dynamic types a configuration map
    holds.  [AnyStrings] is a [[]string], [AnySlice] a [[]any]. *)
Inductive any : Type :=
| AnyNil
| AnyString (s : string)
| AnyBool (b : bool)
| AnyInt (z : Z)
| AnyStrings (l : list string)
| AnySlice (l : list any)
| AnyMap (m : gmap string any).

(** Go's [error]: the rendered message. *)
Definition error := string.

Module plugin.

(** [plugin.ReleaseContext], the fields the plugin reads. *)
Record ReleaseContext := {
  Version : string;
  PreviousVersion : string;
  TagName : string;
  ReleaseType : string;
  Branch : string
}.

(** [plugin.ExecuteRequest]. *)
Record ExecuteRequest := {
  Config : gmap string any;
  DryRun : bool;
  Context : ReleaseContext
}.

(** [plugin.ExecuteResponse]. *)
Record ExecuteResponse := {
  Success : bool;
  Message : string;
  Outputs : gmap string any
}.

(** One entry of [plugin.ValidateResponse.Errors]: the field and the
    message given to [AddError] ([ErrMessage], as [Message] is a field of
    the response above). *)
Record ValidationError := {
  Field : string;
  ErrMessage : string
}.

(** [plugin.ValidateResponse]. *)
Record ValidateResponse := {
  Valid : bool;
  Errors : list ValidationError
}.

End plugin.

(** The SDK's [helpers.ValidationBuilder]: [AddError] records one
    field-scoped error, [Build] returns them in the order recorded. *)
Module helpers.

Definition ValidationBuilder := list plugin.ValidationError.

Definition NewValidationBuilder : ValidationBuilder := [].

Definition AddError (field message : string) (vb : ValidationBuilder)
  : ValidationBuilder :=
  vb ++ [{| plugin.Field := field; plugin.ErrMessage := message |}].

Definition Build (vb : ValidationBuilder) : plugin.ValidateResponse :=
  {| plugin.Valid := match vb with [] => true | _ => false end;
     plugin.Errors := vb |}.

(** The SDK's [helpers.ConfigParser], as the interface the plugin calls:
    [GetString raw key envVar defaultVal], [GetBool raw key defaultVal] and
    [GetStringSlice raw key defaultVal], each applied to the raw map the
    parser was created over.  The process environment a lookup may fall
    back to is part of the instance. *)
Record ConfigParser := {
  GetString : gmap string any -> string -> string -> string -> string;
  GetBool : gmap string any -> string -> bool -> bool;
  GetStringSlice : gmap string any -> string -> list string -> list string
}.

(** The strings of a [[]any]. *)
Definition strings_of (l : list any) : list string :=
  flat_map (fun v => match v with AnyString s => [s] | _ => [] end) l.

(** A sample parser over an environment [getenv], on which the model is
    run for concrete inputs: a non-empty string under the key wins, then a
    non-empty value of the named environment variable, then the default.
    The theorems hold for every [ConfigParser]. *)
Definition envParser (getenv : string -> string) : ConfigParser :=
  {| GetString raw key envVar defaultVal :=
       match raw !! key with
       | Some (AnyString (String c v)) => String c v
       | _ =>
           if negb (String.eqb envVar "") && negb (String.eqb (getenv envVar) "")
           then getenv envVar
           else defaultVal
       end;
     GetBool raw key defaultVal :=
       match raw !! key with
       | Some (AnyBool b) => b
       | _ => defaultVal
       end;
     GetStringSlice raw key defaultVal :=
       match raw !! key with
       | Some (AnyStrings l) => l
       | Some (AnySlice l) => strings_of l
       | _ => defaultVal
       end |}.

End helpers.

(** ** The external processes *)

(** An [exec.Cmd] as the plugin builds it: program, arguments and, when
    set, the text fed to standard input. *)
Record Cmd := {
  cmdName : string;
  cmdArgs : list string;
  cmdStdin : option string
}.

(** [exec.CommandContext(ctx, name, args...)]. *)
Definition CommandContext (name : string) (args : list string) : Cmd :=
  {| cmdName := name; cmdArgs := args; cmdStdin := None |}.

(** [cmd.Stdin = strings.NewReader(text)]. *)
Definition withStdin (text : string) (cmd : Cmd) : Cmd :=
  {| cmdName := cmdName cmd; cmdArgs := cmdArgs cmd; cmdStdin := Some text |}.

(** What [CombinedOutput] returns: the combined output and the error
    ([None] for exit status zero). *)
Record ProcResult := {
  procOutput : string;
  procErr : option error
}.

(** The machine outside the plugin: the outcome of a command, given the
    commands run before it.  Cancellation of the Go context shows as a
    failing outcome. *)
Definition OS := list Cmd -> Cmd -> ProcResult.

(** What the plugin changes outside itself: the processes it started, in
    order, and the lines it printed. *)
Record World := {
  invoked : list Cmd;
  stdout : list string
}.

(** Computations with effects on the [World]. *)
Definition IO (A : Type) : Type := World -> A * World.

Definition ret {A} (a : A) : IO A := fun w => (a, w).

Definition bind {A B} (m : IO A) (k : A -> IO B) : IO B :=
  fun w => let (a, w') := m w in k a w'.

Notation "'let*' x := m 'in' k" := (bind m (fun x => k))
  (at level 10, x name, m at level 100, k at level 200).
Notation "'do' m 'then' k" := (bind m (fun _ => k))
  (at level 10, m at level 100, k at level 200).

(** [fmt.Printf]. *)
Definition Printf (line : string) : IO unit :=
  fun w => (tt, {| invoked := invoked w; stdout := stdout w ++ [line] |}).

(** [cmd.CombinedOutput()]. *)
Definition CombinedOutput (os : OS) (cmd : Cmd) : IO ProcResult :=
  fun w => (os (invoked w) cmd,
            {| invoked := invoked w ++ [cmd]; stdout := stdout w |}).

(** The line feed of the Go format strings. *)
Definition nl : string := String (ascii_of_nat 10) EmptyString.

(** ** client.go *)

(** [AuthConfig]; the fields carry the prefix [auth] where [Config] has a
    field of the same name. *)
Record AuthConfig := {
  Method : string;
  authClientID : string;
  authClientSecret : string;
  authTenantID : string;
  authUsername : string;
  authPassword : string
}.

(** [ACRClient]. *)
Record ACRClient := { registry : string }.

(** [NewACRClient]. *)
Definition NewACRClient (r : string) : ACRClient := {| registry := r |}.

(** [ACRClient.GetRegistryURL]. *)
Definition GetRegistryURL (c : ACRClient) : string :=
  if HasSuffix (registry c) ".azurecr.io"
  then registry c
  else registry c +:+ ".azurecr.io".

(** [auth] with another password. *)
Definition setPassword (auth : AuthConfig) (password : string) : AuthConfig :=
  {| Method := Method auth; authClientID := authClientID auth;
     authClientSecret := authClientSecret auth;
     authTenantID := authTenantID auth; authUsername := authUsername auth;
     authPassword := password |}.

Section Client.

Variable os : OS.

(** [ACRClient.authenticateAzureCLI]. *)
Definition authenticateAzureCLI (c : ACRClient) : IO (option error) :=
  let cmd := CommandContext "az" ["acr"; "login"; "--name"; registry c] in
  let* r := CombinedOutput os cmd in
  match procErr r with
  | Some err =>
      ret (Some ("az acr login failed: " +:+ err +:+ nl +:+ procOutput r))
  | None => ret None
  end.

(** [ACRClient.authenticateServicePrincipal]. *)
Definition authenticateServicePrincipal (c : ACRClient) (auth : AuthConfig)
  : IO (option error) :=
  let loginCmd :=
    CommandContext "az"
      ["login"; "--service-principal";
       "-u"; authClientID auth;
       "-p"; authClientSecret auth;
       "--tenant"; authTenantID auth] in
  let* r := CombinedOutput os loginCmd in
  match procErr r with
  | Some err =>
      ret (Some ("azure login failed: " +:+ err +:+ nl +:+ procOutput r))
  | None => authenticateAzureCLI c
  end.

(** The command that [authenticateAdmin] builds. *)
Definition adminLoginCmd (c : ACRClient) (auth : AuthConfig) : Cmd :=
  withStdin (authPassword auth)
    (CommandContext "docker"
       ["login"; GetRegistryURL c; "-u"; authUsername auth; "--password-stdin"]).

(** [ACRClient.authenticateAdmin]. *)
Definition authenticateAdmin (c : ACRClient) (auth : AuthConfig)
  : IO (option error) :=
  let cmd := adminLoginCmd c auth in
  let* r := CombinedOutput os cmd in
  match procErr r with
  | Some err =>
      ret (Some ("docker login failed: " +:+ err +:+ nl +:+ procOutput r))
  | None => ret None
  end.

(** [ACRClient.authenticateManagedIdentity]. *)
Definition authenticateManagedIdentity (c : ACRClient) : IO (option error) :=
  let cmd := CommandContext "az" ["acr"; "login"; "--name"; registry c] in
  let* r := CombinedOutput os cmd in
  match procErr r with
  | Some err =>
      ret (Some ("az acr login with managed identity failed: "
                 +:+ err +:+ nl +:+ procOutput r))
  | None => ret None
  end.

(** [ACRClient.Authenticate]; a nil [auth] is [None]. *)
Definition Authenticate (c : ACRClient) (auth : option AuthConfig)
  : IO (option error) :=
  let auth :=
    match auth with
    | Some a => a
    | None =>
        {| Method := "azure_cli"; authClientID := ""; authClientSecret := "";
           authTenantID := ""; authUsername := ""; authPassword := "" |}
    end in
  if String.eqb (Method auth) "azure_cli" || String.eqb (Method auth) ""
  then authenticateAzureCLI c
  else if String.eqb (Method auth) "service_principal"
  then authenticateServicePrincipal c auth
  else if String.eqb (Method auth) "admin"
  then authenticateAdmin c auth
  else if String.eqb (Method auth) "managed_identity"
  then authenticateManagedIdentity c
  else ret (Some ("unknown auth method: " +:+ Method auth)).

End Client.

(** ** docker.go *)

(** Modelled from the spec: the commands of docker.go, which is not among
    the sources.  Section 6: "Container-tool tag: <container-tool> tag
    <source> <target>" and "Container-tool push: <container-tool> push
    <target>".  The container tool is the [docker] that
    [authenticateAdmin] runs. *)
Definition tagCmd (source target : string) : Cmd :=
  CommandContext "docker" ["tag"; source; target].

Definition pushCmd (target : string) : Cmd :=
  CommandContext "docker" ["push"; target].

Section Docker.

Variable os : OS.

(** Modelled from the spec: [DockerClient.Tag] of docker.go, which is not
    among the sources.  It runs [tagCmd]; section 7: the error "wraps the
    failing external tag or push invocation's output". *)
Definition dockerTag (source target : string) : IO (option error) :=
  let cmd := tagCmd source target in
  let* r := CombinedOutput os cmd in
  match procErr r with
  | Some err => ret (Some (err +:+ nl +:+ procOutput r))
  | None => ret None
  end.

(** Modelled from the spec: [DockerClient.Push] of docker.go, which is not
    among the sources.  It runs [pushCmd]; the error as for [dockerTag]. *)
Definition dockerPush (target : string) : IO (option error) :=
  let cmd := pushCmd target in
  let* r := CombinedOutput os cmd in
  match procErr r with
  | Some err => ret (Some (err +:+ nl +:+ procOutput r))
  | None => ret None
  end.

End Docker.

(** ** plugin.go *)

(** [Config]. *)
Record Config := {
  Registry : string;
  Repository : string;
  Image : string;
  AuthMethod : string;
  ClientID : string;
  ClientSecret : string;
  TenantID : string;
  Username : string;
  Password : string;
  SourceImage : string;
  Tags : list string;
  DryRun : bool
}.

(** [cfg.DryRun = cfg.DryRun || req.DryRun]. *)
Definition setDryRun (cfg : Config) (d : bool) : Config :=
  {| Registry := Registry cfg; Repository := Repository cfg;
     Image := Image cfg; AuthMethod := AuthMethod cfg;
     ClientID := ClientID cfg; ClientSecret := ClientSecret cfg;
     TenantID := TenantID cfg; Username := Username cfg;
     Password := Password cfg; SourceImage := SourceImage cfg;
     Tags := Tags cfg; DryRun := d |}.

(** [ACRPlugin.processTemplate]. *)
Definition processTemplate (tmpl : string) (ctx : plugin.ReleaseContext)
  : string :=
  let result := tmpl in
  if Contains result "{{if" then ""
  else
    let result := ReplaceAll result "{{.Version}}" (plugin.Version ctx) in
    let result :=
      ReplaceAll result "{{.PreviousVersion}}" (plugin.PreviousVersion ctx) in
    let result := ReplaceAll result "{{.TagName}}" (plugin.TagName ctx) in
    let result := ReplaceAll result "{{.ReleaseType}}" (plugin.ReleaseType ctx) in
    if negb (String.eqb (plugin.Branch ctx) "")
    then
      let safeBranch := ReplaceAll (plugin.Branch ctx) "/" "-" in
      ReplaceAll result "{{.Branch}}" safeBranch
    else result.

(** [ACRPlugin.processTags]: the loop appends each non-empty result to
    [processed]. *)
Definition processTags (tags : list string) (ctx : plugin.ReleaseContext)
  : list string :=
  fold_left
    (fun processed tag =>
       let result := processTemplate tag ctx in
       if negb (String.eqb result "") then processed ++ [result] else processed)
    tags [].

(** The test [result != ""] of [processTags]. *)
Definition keep (result : string) : bool := negb (String.eqb result "").

(** The image path and target reference built in the loop of [Execute]. *)
Definition imagePath (cfg : Config) : string :=
  if negb (String.eqb (Repository cfg) "")
  then Repository cfg +:+ "/" +:+ Image cfg
  else Image cfg.

Definition targetImage (cfg : Config) (registryURL tag : string) : string :=
  registryURL +:+ "/" +:+ imagePath cfg +:+ ":" +:+ tag.

(** The commands a complete run of the loop of [Execute] issues for
    [tags]: for each tag in turn its tag command, then its push command. *)
Definition plan (cfg : Config) (registryURL : string) (tags : list string)
  : list Cmd :=
  flat_map
    (fun tag =>
       [tagCmd (SourceImage cfg) (targetImage cfg registryURL tag);
        pushCmd (targetImage cfg registryURL tag)])
    tags.

(** The response [Execute] returns at its end. *)
Definition successResponse (cfg : Config) (registryURL : string)
    (tags pushedImages : list string) : plugin.ExecuteResponse :=
  {| plugin.Success := true;
     plugin.Message :=
       "Successfully pushed " +:+ pretty (length pushedImages)
       +:+ " image(s) to ACR";
     plugin.Outputs :=
       <["registry" := AnyString registryURL]>
       (<["repository" := AnyString (Repository cfg)]>
       (<["tags" := AnyStrings tags]>
       (<["pushed_images" := AnyStrings pushedImages]> ∅))) |}.

(** What [Execute] does with the outcome of the loop. *)
Definition finish (cfg : Config) (url : string) (tags : list string)
    (pushed : error + list string)
  : option plugin.ExecuteResponse * option error :=
  match pushed with
  | inl err => (None, Some err)
  | inr pushedImages => (Some (successResponse cfg url tags pushedImages), None)
  end.

(** The [AuthConfig] that [Execute] fills from the configuration. *)
Definition authConfigOf (cfg : Config) : AuthConfig :=
  {| Method := AuthMethod cfg;
     authClientID := ClientID cfg;
     authClientSecret := ClientSecret cfg;
     authTenantID := TenantID cfg;
     authUsername := Username cfg;
     authPassword := Password cfg |}.

(** [cmds] are the commands that [m] starts from the world [w], in order,
    and a command among them that fails is the last one started and makes
    the result one of which [failed] holds.  The outcome of the command at
    index [i] is the machine's answer after the commands before it. *)
Definition stopsAtFailure {A : Type} (os : OS) (failed : A -> Prop)
    (m : IO A) (w : World) (cmds : list Cmd) : Prop :=
  invoked (snd (m w)) = invoked w ++ cmds
  /\ forall (i : nat) (c : Cmd),
       cmds !! i = Some c ->
       procErr (os (invoked w ++ take i cmds) c) <> None ->
       S i = length cmds /\ failed (fst (m w)).

Section Plugin.

Variable parser : helpers.ConfigParser.
Variable os : OS.

(** [ACRPlugin.parseConfig]. *)
Definition parseConfig (raw : gmap string any) : Config :=
  let tags := helpers.GetStringSlice parser raw "tags" [] in
  let tags :=
    if (length tags =? 0)%nat then ["{{.Version}}"] else tags in
  let '(authMethod, clientID, clientSecret, tenantID, username, password) :=
    match raw !! "auth" with
    | Some (AnyMap authRaw) =>
        (helpers.GetString parser authRaw "method" "" "azure_cli",
         helpers.GetString parser authRaw "client_id" "AZURE_CLIENT_ID" "",
         helpers.GetString parser authRaw "client_secret" "AZURE_CLIENT_SECRET" "",
         helpers.GetString parser authRaw "tenant_id" "AZURE_TENANT_ID" "",
         helpers.GetString parser authRaw "username" "ACR_USERNAME" "",
         helpers.GetString parser authRaw "password" "ACR_PASSWORD" "")
    | _ => ("azure_cli", "", "", "", "", "")
    end in
  {| Registry := helpers.GetString parser raw "registry" "" "";
     Repository := helpers.GetString parser raw "repository" "" "";
     Image := helpers.GetString parser raw "image" "" "";
     AuthMethod := authMethod;
     ClientID := clientID;
     ClientSecret := clientSecret;
     TenantID := tenantID;
     Username := username;
     Password := password;
     SourceImage := helpers.GetString parser raw "source_image" "" "";
     Tags := tags;
     DryRun := helpers.GetBool parser raw "dry_run" false |}.

(** [ACRPlugin.Validate]. *)
Definition Validate (config : gmap string any)
  : plugin.ValidateResponse * option error :=
  let vb := helpers.NewValidationBuilder in
  let cfg := parseConfig config in
  let vb :=
    if String.eqb (Registry cfg) ""
    then helpers.AddError "registry" "ACR registry name is required" vb
    else vb in
  let vb :=
    if String.eqb (Image cfg) ""
    then helpers.AddError "image" "image name is required" vb
    else vb in
  let vb :=
    if String.eqb (SourceImage cfg) ""
    then helpers.AddError "source_image" "source image is required" vb
    else vb in
  let validMethods :=
    ["azure_cli"; "service_principal"; "admin"; "managed_identity"; ""] in
  let isValidMethod := existsb (String.eqb (AuthMethod cfg)) validMethods in
  let vb :=
    if negb isValidMethod
    then helpers.AddError "auth.method"
           "auth method must be 'azure_cli', 'service_principal', 'admin', or 'managed_identity'"
           vb
    else vb in
  let vb :=
    if String.eqb (AuthMethod cfg) "service_principal"
    then
      if String.eqb (ClientID cfg) "" || String.eqb (ClientSecret cfg) ""
         || String.eqb (TenantID cfg) ""
      then helpers.AddError "auth"
             "service principal requires client_id, client_secret, and tenant_id"
             vb
      else vb
    else vb in
  let vb :=
    if String.eqb (AuthMethod cfg) "admin"
    then
      if String.eqb (Username cfg) "" || String.eqb (Password cfg) ""
      then helpers.AddError "auth" "admin auth requires username and password" vb
      else vb
    else vb in
  (helpers.Build vb, None).

(** The loop of [Execute] over the resolved tags: [inl] is the early
    return with an error, [inr] the list [pushedImages] at the end. *)
Fixpoint pushImages (cfg : Config) (registryURL : string)
    (tags : list string) (pushedImages : list string)
  : IO (error + list string) :=
  match tags with
  | [] => ret (inr pushedImages)
  | tag :: rest =>
      if String.eqb tag ""
      then pushImages cfg registryURL rest pushedImages
      else
        let target := targetImage cfg registryURL tag in
        if DryRun cfg
        then
          do Printf ("[dry-run] Would tag " +:+ SourceImage cfg +:+ " as "
                     +:+ target +:+ nl) then
          do Printf ("[dry-run] Would push " +:+ target +:+ nl) then
          pushImages cfg registryURL rest (pushedImages ++ [target])
        else
          let* err := dockerTag os (SourceImage cfg) target in
          match err with
          | Some e => ret (inl ("failed to tag image: " +:+ e))
          | None =>
              let* err := dockerPush os target in
              match err with
              | Some e => ret (inl ("failed to push image: " +:+ e))
              | None =>
                  do Printf ("Pushed: " +:+ target +:+ nl) then
                  pushImages cfg registryURL rest (pushedImages ++ [target])
              end
          end
  end.

(** The configuration [Execute] works with: the parsed one, its dry-run
    flag merged with the request's. *)
Definition mergedConfig (req : plugin.ExecuteRequest) : Config :=
  let cfg := parseConfig (plugin.Config req) in
  setDryRun cfg (DryRun cfg || plugin.DryRun req).

(** [ACRPlugin.Execute]. *)
Definition Execute (req : plugin.ExecuteRequest)
  : IO (option plugin.ExecuteResponse * option error) :=
  let cfg := mergedConfig req in
  let tags := processTags (Tags cfg) (plugin.Context req) in
  let client := NewACRClient (Registry cfg) in
  let* authErr :=
    if negb (DryRun cfg)
    then
      let authCfg := authConfigOf cfg in
      Authenticate os client (Some authCfg)
    else ret None in
  match authErr with
  | Some err => ret (None, Some ("failed to authenticate with ACR: " +:+ err))
  | None =>
      let registryURL := GetRegistryURL client in
      let* pushed := pushImages cfg registryURL tags [] in
      match pushed with
      | inl err => ret (None, Some err)
      | inr pushedImages =>
          ret (Some (successResponse cfg registryURL tags pushedImages), None)
      end
  end.

End Plugin.

(** ** Concrete inputs *)

Definition noEnv : string -> string := fun _ => "".

Definition ctx231 : plugin.ReleaseContext :=
  {| plugin.Version := "2.3.1"; plugin.PreviousVersion := "";
     plugin.TagName := ""; plugin.ReleaseType := ""; plugin.Branch := "" |}.

(** A machine on which every command succeeds silently. *)
Definition osOk : OS := fun _ _ => {| procOutput := ""; procErr := None |}.

(** A machine on which every [push] fails and everything else succeeds. *)
Definition osPushFails : OS :=
  fun _ cmd =>
    match cmdArgs cmd with
    | "push" :: _ => {| procOutput := "denied"; procErr := Some "exit status 1" |}
    | _ => {| procOutput := ""; procErr := None |}
    end.

(** A machine on which every command fails. *)
Definition osFail : OS :=
  fun _ _ => {| procOutput := "no session"; procErr := Some "exit status 1" |}.

Definition world0 : World := {| invoked := []; stdout := [] |}.

Definition rawMinimal : gmap string any :=
  <["registry" := AnyString "myregistry"]>
  (<["image" := AnyString "myapp"]>
  (<["source_image" := AnyString "myapp:latest"]>
  (<["tags" := AnySlice [AnyString "1.0.0"; AnyString "latest"]]> ∅))).

Definition reqMinimal (dry : bool) : plugin.ExecuteRequest :=
  {| plugin.Config := rawMinimal; plugin.DryRun := dry; plugin.Context := ctx231 |}.

(** ** Further concrete inputs *)

Definition ctxBranch : plugin.ReleaseContext :=
  {| plugin.Version := "1.0.0"; plugin.PreviousVersion := "0.9.0";
     plugin.TagName := "v1.0.0"; plugin.ReleaseType := "stable";
     plugin.Branch := "feature/my-feature" |}.

(** An environment in which every variable is set. *)
Definition envFull : string -> string := fun _ => "from-env".

(** A configuration whose [auth] entry is a text, not a map. *)
Definition rawAuthText : gmap string any :=
  <["auth" := AnyString "admin"]> rawMinimal.

Definition bogusAuth : AuthConfig :=
  {| Method := "bogus"; authClientID := ""; authClientSecret := "";
     authTenantID := ""; authUsername := ""; authPassword := "" |}.

Definition spAuth : AuthConfig :=
  {| Method := "service_principal"; authClientID := "my-client-id";
     authClientSecret := "my-secret"; authTenantID := "my-tenant";
     authUsername := ""; authPassword := "" |}.

(** * Facts about the string functions *)

Section StringFacts.

Lemma length_append (a b : string) :
  String.length (a +:+ b) = String.length a + String.length b.
Proof. induction a as [|c a IH]; simpl; [reflexivity | now rewrite IH]. Qed.

Lemma HasPrefix_append (p r : string) : HasPrefix (p +:+ r) p = true.
Proof.
  induction p as [|c p IH]; simpl; [reflexivity |].
  now rewrite Ascii.eqb_refl, IH.
Qed.

Lemma HasPrefix_inv (s p : string) :
  HasPrefix s p = true -> exists r, s = p +:+ r.
Proof.
  revert s; induction p as [|c p IH]; intros s H.
  - now exists s.
  - destruct s as [|d s]; simpl in H; [discriminate |].
    apply andb_true_iff in H as [Hc Hp].
    apply Ascii.eqb_eq in Hc; subst d.
    destruct (IH _ Hp) as [r ->]. now exists r.
Qed.

Lemma Contains_here (s p : string) : HasPrefix s p = true -> Contains s p = true.
Proof. destruct s; simpl; intros ->; reflexivity. Qed.

Lemma Contains_later (c : ascii) (s p : string) :
  Contains s p = true -> Contains (String c s) p = true.
Proof. simpl; intros ->; apply orb_true_r. Qed.

Lemma Contains_append_l (a s p : string) :
  Contains s p = true -> Contains (a +:+ s) p = true.
Proof.
  induction a as [|c a IH]; simpl; intros H; [exact H |].
  rewrite (IH H). apply orb_true_r.
Qed.

Lemma Contains_cons_inv (c : ascii) (s p : string) :
  Contains (String c s) p = true ->
  HasPrefix (String c s) p = true \/ Contains s p = true.
Proof. simpl; intros H; apply orb_true_iff in H; exact H. Qed.

Lemma substring_append_r (a b : string) :
  substring (String.length a) (String.length b) (a +:+ b) = b.
Proof.
  induction a as [|c a IH]; simpl.
  - induction b as [|d b IHb]; simpl; [reflexivity | now rewrite IHb].
  - exact IH.
Qed.

Lemma HasSuffix_append (a b : string) : HasSuffix (a +:+ b) b = true.
Proof.
  unfold HasSuffix. rewrite length_append.
  replace (String.length a + String.length b - String.length b)
    with (String.length a) by lia.
  rewrite substring_append_r, String.eqb_refl.
  apply andb_true_iff; split; [apply Nat.leb_le; lia | reflexivity].
Qed.

Lemma drop_append (a b : string) : drop (String.length a) (a +:+ b) = b.
Proof. induction a as [|c a IH]; simpl; [reflexivity | exact IH]. Qed.

Lemma HasPrefix_append_cases (u r q : string) :
  HasPrefix (u +:+ r) q = true ->
  HasPrefix u q = true \/ HasPrefix q u = true.
Proof.
  revert u; induction q as [|d q IH]; intros u H; [now left |].
  destruct u as [|c u]; [now right |].
  simpl in H. apply andb_true_iff in H as [Hc Hq].
  apply Ascii.eqb_eq in Hc; subst d.
  destruct (IH _ Hq) as [H | H]; [left | right];
    simpl; now rewrite Ascii.eqb_refl, H.
Qed.

Lemma apart_cons (c : ascii) (u q : string) :
  apart (String c u) q = true ->
  HasPrefix (String c u) q = false /\ HasPrefix q (String c u) = false
  /\ apart u q = true.
Proof.
  intros H. change (apart (String c u) q)
    with (negb (HasPrefix (String c u) q) && negb (HasPrefix q (String c u))
          && apart u q) in H.
  apply andb_true_iff in H as [H H3]. apply andb_true_iff in H as [H1 H2].
  apply negb_true_iff in H1, H2. auto.
Qed.

(** An occurrence of [q] in [u +:+ r] that cannot begin inside [u] lies
    in [r]. *)
Lemma Contains_past (u r q : string) :
  apart u q = true -> Contains (u +:+ r) q = true -> Contains r q = true.
Proof.
  induction u as [|c u IH]; intros Hu H; [exact H |].
  apply apart_cons in Hu as (H1 & H2 & Hu).
  change (String c u +:+ r) with (String c (u +:+ r)) in H.
  apply Contains_cons_inv in H as [H | H]; [| now apply IH].
  apply (HasPrefix_append_cases (String c u) r q) in H as [H | H]; congruence.
Qed.

Section Replace.

Variables old new : string.

Lemma replaceScan_skip (k : nat) (s : string) :
  replaceScan old new k s = replaceScan old new 0 (drop k s).
Proof.
  revert s; induction k as [|k IH]; intros s; [now destruct s |].
  destruct s as [|c s]; [reflexivity | simpl; apply IH].
Qed.

Lemma replaceScan_match (s : string) :
  old <> "" -> HasPrefix s old = true ->
  replaceScan old new 0 s
  = new +:+ replaceScan old new 0 (drop (String.length old) s).
Proof.
  intros Hold H. destruct s as [|c s].
  - destruct old; [congruence | discriminate].
  - change (replaceScan old new 0 (String c s))
      with (if HasPrefix (String c s) old
            then new +:+ replaceScan old new (String.length old - 1) s
            else String c (replaceScan old new 0 s)).
    rewrite H, replaceScan_skip. destruct old as [|d o]; [congruence |].
    simpl. now rewrite Nat.sub_0_r.
Qed.

Lemma replaceScan_nomatch (c : ascii) (s : string) :
  HasPrefix (String c s) old = false ->
  replaceScan old new 0 (String c s) = String c (replaceScan old new 0 s).
Proof.
  intros H.
  change (replaceScan old new 0 (String c s))
    with (if HasPrefix (String c s) old
          then new +:+ replaceScan old new (String.length old - 1) s
          else String c (replaceScan old new 0 s)).
  now rewrite H.
Qed.

(** Text in which no match of [old] can begin is copied as it is. *)
Lemma replaceScan_copy (u r : string) :
  apart u old = true ->
  replaceScan old new 0 (u +:+ r) = u +:+ replaceScan old new 0 r.
Proof.
  induction u as [|c u IH]; intros Hu; [reflexivity |].
  apply apart_cons in Hu as (H1 & H2 & Hu).
  change (String c u +:+ r) with (String c (u +:+ r)).
  assert (E : HasPrefix (String c (u +:+ r)) old = false).
  { destruct (HasPrefix (String c (u +:+ r)) old) eqn:E; [| reflexivity].
    apply (HasPrefix_append_cases (String c u) r old) in E as [E | E];
      congruence. }
  rewrite (replaceScan_nomatch _ _ E), (IH Hu). reflexivity.
Qed.

(** A text [q] that cannot overlap a match of [old] survives the
    replacement of [old]. *)
Lemma replaceScan_keeps (q : string) :
  old <> "" -> apart old q = true -> apart q old = true ->
  forall (n : nat) (s : string),
    String.length s <= n ->
    Contains s q = true -> Contains (replaceScan old new 0 s) q = true.
Proof.
  intros Hold Hoq Hqo. induction n as [|n IH]; intros s Hn H.
  - destruct s; [exact H | simpl in Hn; lia].
  - destruct s as [|c s]; [exact H |].
    apply Contains_cons_inv in H as [H | H].
    + apply HasPrefix_inv in H as [r ->].
      rewrite replaceScan_copy by exact Hqo.
      apply Contains_here, HasPrefix_append.
    + destruct (HasPrefix (String c s) old) eqn:E.
      * rewrite replaceScan_match by assumption.
        apply Contains_append_l.
        pose proof E as E'. apply HasPrefix_inv in E' as [r Hr].
        assert (Hq : Contains r q = true).
        { apply (Contains_past old); [exact Hoq |].
          rewrite <- Hr. now apply Contains_later. }
        rewrite Hr, drop_append. apply IH; [| exact Hq].
        apply (f_equal String.length) in Hr. rewrite length_append in Hr.
        simpl in Hr, Hn. destruct old; [congruence | simpl in Hr; lia].
      * rewrite replaceScan_nomatch by exact E.
        apply Contains_later, IH; [simpl in Hn; lia | exact H].
Qed.

Lemma ReplaceAll_keeps (q s : string) :
  apart old q = true -> apart q old = true ->
  Contains s q = true -> Contains (ReplaceAll s old new) q = true.
Proof.
  intros Hoq Hqo H. unfold ReplaceAll. destruct old as [|d o] eqn:E; [exact H |].
  rewrite <- E in *. apply (replaceScan_keeps q) with (n := String.length s); auto.
  rewrite E; discriminate.
Qed.

End Replace.

End StringFacts.

(** * The registry endpoint resolver *)

(** C4.  Resolving a registry name twice gives the same host as resolving it
    once.  A name that already ends with the dot-led domain suffix
    [.azurecr.io] is returned unchanged, any other name gets a dot and the
    domain [azurecr.io] appended. *)
Theorem C4_GetRegistryURL_idempotent (r : string) :
  GetRegistryURL (NewACRClient (GetRegistryURL (NewACRClient r)))
  = GetRegistryURL (NewACRClient r)
  /\ GetRegistryURL (NewACRClient r)
     = if HasSuffix r ".azurecr.io" then r else r +:+ "." +:+ "azurecr.io".
Proof.
  split; [| reflexivity].
  assert (step : forall x, GetRegistryURL (NewACRClient x)
                           = if HasSuffix x ".azurecr.io" then x
                             else x +:+ ".azurecr.io") by reflexivity.
  rewrite !step.
  destruct (HasSuffix r ".azurecr.io") eqn:E.
  - now rewrite E.
  - now rewrite HasSuffix_append.
Qed.

(** * Tag template resolution *)

Lemma processTags_fold (ctx : plugin.ReleaseContext) (tags acc : list string) :
  fold_left
    (fun processed tag =>
       let result := processTemplate tag ctx in
       if negb (String.eqb result "") then processed ++ [result] else processed)
    tags acc
  = acc ++ List.filter keep (map (fun t => processTemplate t ctx) tags).
Proof.
  revert acc; induction tags as [|t tags IH]; intros acc; simpl.
  - now rewrite app_nil_r.
  - rewrite IH. unfold keep at 2.
    destruct (negb (String.eqb (processTemplate t ctx) "")); simpl.
    + now rewrite <- app_assoc.
    + reflexivity.
Qed.

Lemma processTags_filter (tags : list string) (ctx : plugin.ReleaseContext) :
  processTags tags ctx
  = List.filter keep (map (fun t => processTemplate t ctx) tags).
Proof. unfold processTags. now rewrite processTags_fold. Qed.

Lemma processTags_app (a b : list string) (ctx : plugin.ReleaseContext) :
  processTags (a ++ b) ctx = processTags a ctx ++ processTags b ctx.
Proof. rewrite !processTags_filter, map_app. apply List.filter_app. Qed.

Lemma processTags_cons (t : string) (l : list string) (ctx : plugin.ReleaseContext) :
  processTags (t :: l) ctx
  = (if keep (processTemplate t ctx) then [processTemplate t ctx] else [])
      ++ processTags l ctx.
Proof.
  rewrite !processTags_filter; simpl.
  now destruct (keep (processTemplate t ctx)).
Qed.

Lemma filter_sublist {A} (f : A -> bool) (l : list A) :
  sublist (List.filter f l) l.
Proof.
  induction l as [|x l IH]; simpl; [constructor |].
  destruct (f x); now constructor.
Qed.

(** C3 as stated fails: the text [{{version}}] is no placeholder of the
    resolver and passes through unchanged. *)
Lemma C3_plain_version_text_unchanged :
  plugin.Version ctx231 = "2.3.1"
  /\ processTags ["{{version}}"] ctx231 = ["{{version}}"]
  /\ processTags ["{{version}}"] ctx231 <> ["2.3.1"].
Proof. vm_compute. repeat split. discriminate. Qed.

(** C3, amended.  For the tag-template list with the single template
    [{{.Version}}] and a release context whose version is 2.3.1, tag
    resolution returns exactly the list with the single tag 2.3.1. *)
Theorem C3_version_template_resolves (ctx : plugin.ReleaseContext) :
  plugin.Version ctx = "2.3.1" ->
  processTags ["{{.Version}}"] ctx = ["2.3.1"].
Proof.
  destruct ctx as [v pv tn rt br]; simpl; intros ->.
  unfold processTags, processTemplate; simpl.
  destruct br; reflexivity.
Qed.

(** C3, amended, at the context [ctx231]. *)
Lemma C3_version_template_resolves_witness :
  plugin.Version ctx231 = "2.3.1"
  /\ processTags ["{{.Version}}"] ctx231 = ["2.3.1"].
Proof.
  split; [reflexivity | apply (C3_version_template_resolves ctx231); reflexivity].
Defined.

(** C5.  Tag resolution returns a sequence no longer than the list of
    templates; it is the sequence of the templates' results in their input
    order with exactly the empty results left out. *)
Theorem C5_processTags_order_and_length
    (tags : list string) (ctx : plugin.ReleaseContext) :
  length (processTags tags ctx) <= length tags
  /\ sublist (processTags tags ctx) (map (fun t => processTemplate t ctx) tags)
  /\ processTags tags ctx
     = List.filter (fun result => negb (String.eqb result ""))
         (map (fun t => processTemplate t ctx) tags)
  /\ ~ In "" (processTags tags ctx).
Proof.
  rewrite processTags_filter. repeat split.
  - etransitivity; [apply List.filter_length_le | now rewrite length_map].
  - apply filter_sublist.
  - intros H. apply List.filter_In in H as [_ H]. discriminate.
Qed.

(** C6.  A template that contains the marker [{{if] resolves to the empty
    string whatever else it contains, and tag resolution leaves it out of
    its output: the templates around it resolve as if it were absent, and
    the result is an ordinary list. *)
Theorem C6_conditional_template_dropped
    (tmpl : string) (ctx : plugin.ReleaseContext) (before after : list string) :
  Contains tmpl "{{if" = true ->
  processTemplate tmpl ctx = ""
  /\ processTags (before ++ tmpl :: after) ctx
     = processTags before ctx ++ processTags after ctx.
Proof.
  intros H.
  assert (E : processTemplate tmpl ctx = "")
    by (unfold processTemplate; now rewrite H).
  split; [exact E |].
  rewrite processTags_app, processTags_cons, E. reflexivity.
Qed.

(** C6 at the conditional template of the plugin's tests, between two
    other templates. *)
Lemma C6_conditional_template_dropped_witness :
  Contains "{{if .IsPrerelease}}beta{{end}}" "{{if" = true
  /\ processTemplate "{{if .IsPrerelease}}beta{{end}}" ctx231 = ""
  /\ processTags (["{{.Version}}"] ++ "{{if .IsPrerelease}}beta{{end}}" :: ["latest"]) ctx231
     = processTags ["{{.Version}}"] ctx231 ++ processTags ["latest"] ctx231.
Proof.
  split; [reflexivity |].
  apply (C6_conditional_template_dropped _ ctx231 ["{{.Version}}"] ["latest"]).
  reflexivity.
Defined.

(** C10 as stated fails: a template that holds the branch placeholder
    together with the marker [{{if] is dropped, empty branch or not. *)
Lemma C10_conditional_branch_template_dropped :
  plugin.Branch ctx231 = ""
  /\ Contains "{{if .Pre}}{{.Branch}}{{end}}" "{{.Branch}}" = true
  /\ processTemplate "{{if .Pre}}{{.Branch}}{{end}}" ctx231 = ""
  /\ Contains (processTemplate "{{if .Pre}}{{.Branch}}{{end}}" ctx231)
       "{{.Branch}}" = false
  /\ processTags ["{{if .Pre}}{{.Branch}}{{end}}"] ctx231 = [].
Proof. vm_compute. repeat split. Qed.

(** C10, amended.  If the branch of the release context is the empty
    string, then for every template that contains [{{.Branch}}] and does
    not contain the marker [{{if], the resolved tag still contains the
    text [{{.Branch}}], is not empty, and is kept at its place in the
    output of tag resolution. *)
Theorem C10_empty_branch_placeholder_kept
    (tmpl : string) (ctx : plugin.ReleaseContext) (before after : list string) :
  plugin.Branch ctx = "" ->
  Contains tmpl "{{.Branch}}" = true ->
  Contains tmpl "{{if" = false ->
  Contains (processTemplate tmpl ctx) "{{.Branch}}" = true
  /\ processTemplate tmpl ctx <> ""
  /\ processTags (before ++ tmpl :: after) ctx
     = processTags before ctx ++ processTemplate tmpl ctx :: processTags after ctx.
Proof.
  intros Hb Hc Hif.
  assert (K : Contains (processTemplate tmpl ctx) "{{.Branch}}" = true).
  { unfold processTemplate. rewrite Hif, Hb.
    change (negb (String.eqb "" "")) with false. cbv iota.
    repeat (apply ReplaceAll_keeps; [reflexivity | reflexivity |]).
    exact Hc. }
  assert (N : processTemplate tmpl ctx <> "").
  { intros E. rewrite E in K. discriminate. }
  repeat split; [exact K | exact N |].
  rewrite processTags_app, processTags_cons. unfold keep.
  apply String.eqb_neq in N. now rewrite N.
Qed.

(** C10, amended, at a template with a version and a branch placeholder. *)
Lemma C10_empty_branch_placeholder_kept_witness :
  plugin.Branch ctx231 = ""
  /\ Contains "v{{.Version}}-{{.Branch}}" "{{.Branch}}" = true
  /\ Contains "v{{.Version}}-{{.Branch}}" "{{if" = false
  /\ Contains (processTemplate "v{{.Version}}-{{.Branch}}" ctx231) "{{.Branch}}" = true
  /\ processTemplate "v{{.Version}}-{{.Branch}}" ctx231 <> ""
  /\ processTags (["latest"] ++ "v{{.Version}}-{{.Branch}}" :: ["{{.TagName}}"]) ctx231
     = processTags ["latest"] ctx231
       ++ processTemplate "v{{.Version}}-{{.Branch}}" ctx231
       :: processTags ["{{.TagName}}"] ctx231.
Proof.
  split; [reflexivity |]. split; [reflexivity |]. split; [reflexivity |].
  apply (C10_empty_branch_placeholder_kept _ ctx231 ["latest"] ["{{.TagName}}"]);
    reflexivity.
Defined.

(** * Validation *)

(** C7.  For a configuration parser that returns the default for a key the
    empty map lacks when no environment variable is named, Validate on the
    empty map returns, in one response and without an error of its own,
    exactly three field-scoped errors: missing registry, missing image and
    missing source image.  The auth method is then the default azure_cli,
    so there is no auth-method error. *)
Theorem C7_Validate_empty_config (parser : helpers.ConfigParser) :
  (forall key defaultVal : string,
      helpers.GetString parser ∅ key "" defaultVal = defaultVal) ->
  Validate parser ∅
  = ({| plugin.Valid := false;
        plugin.Errors :=
          [ {| plugin.Field := "registry";
               plugin.ErrMessage := "ACR registry name is required" |};
            {| plugin.Field := "image";
               plugin.ErrMessage := "image name is required" |};
            {| plugin.Field := "source_image";
               plugin.ErrMessage := "source image is required" |} ] |},
     None)
  /\ AuthMethod (parseConfig parser ∅) = "azure_cli".
Proof.
  intros Hmiss.
  assert (Hauth : (∅ : gmap string any) !! "auth" = None) by apply lookup_empty.
  unfold Validate, parseConfig. rewrite Hauth, !Hmiss. simpl.
  split; reflexivity.
Qed.

(** C7 at the sample parser over an empty environment. *)
Lemma C7_Validate_empty_config_witness :
  (forall key defaultVal : string,
      helpers.GetString (helpers.envParser noEnv) ∅ key "" defaultVal
      = defaultVal)
  /\ Validate (helpers.envParser noEnv) ∅
     = ({| plugin.Valid := false;
           plugin.Errors :=
             [ {| plugin.Field := "registry";
                  plugin.ErrMessage := "ACR registry name is required" |};
               {| plugin.Field := "image";
                  plugin.ErrMessage := "image name is required" |};
               {| plugin.Field := "source_image";
                  plugin.ErrMessage := "source image is required" |} ] |},
        None)
  /\ AuthMethod (parseConfig (helpers.envParser noEnv) ∅) = "azure_cli".
Proof.
  split; [intros key defaultVal; reflexivity |].
  apply (C7_Validate_empty_config (helpers.envParser noEnv)).
  intros key defaultVal; reflexivity.
Defined.

(** * Authentication *)

Section AuthFacts.

Variable os : OS.

(** One command is run and its failure, if any, is reported. *)
Lemma CombinedOutput_run (cmd : Cmd) (w : World) :
  CombinedOutput os cmd w
  = (os (invoked w) cmd,
     {| invoked := invoked w ++ [cmd]; stdout := stdout w |}).
Proof. reflexivity. Qed.

Lemma authenticateAzureCLI_run (c : ACRClient) (w : World) :
  authenticateAzureCLI os c w
  = (match procErr (os (invoked w)
                      (CommandContext "az" ["acr"; "login"; "--name"; registry c])) with
     | Some err =>
         Some ("az acr login failed: " +:+ err +:+ nl
               +:+ procOutput (os (invoked w)
                     (CommandContext "az" ["acr"; "login"; "--name"; registry c])))
     | None => None
     end,
     {| invoked :=
          invoked w ++ [CommandContext "az" ["acr"; "login"; "--name"; registry c]];
        stdout := stdout w |}).
Proof.
  unfold authenticateAzureCLI, bind. rewrite CombinedOutput_run.
  now destruct (procErr _).
Qed.

Lemma authenticateManagedIdentity_run (c : ACRClient) (w : World) :
  authenticateManagedIdentity os c w
  = (match procErr (os (invoked w)
                      (CommandContext "az" ["acr"; "login"; "--name"; registry c])) with
     | Some err =>
         Some ("az acr login with managed identity failed: " +:+ err +:+ nl
               +:+ procOutput (os (invoked w)
                     (CommandContext "az" ["acr"; "login"; "--name"; registry c])))
     | None => None
     end,
     {| invoked :=
          invoked w ++ [CommandContext "az" ["acr"; "login"; "--name"; registry c]];
        stdout := stdout w |}).
Proof.
  unfold authenticateManagedIdentity, bind. rewrite CombinedOutput_run.
  now destruct (procErr _).
Qed.

Lemma authenticateAdmin_run (c : ACRClient) (auth : AuthConfig) (w : World) :
  authenticateAdmin os c auth w
  = (match procErr (os (invoked w) (adminLoginCmd c auth)) with
     | Some err =>
         Some ("docker login failed: " +:+ err +:+ nl
               +:+ procOutput (os (invoked w) (adminLoginCmd c auth)))
     | None => None
     end,
     {| invoked := invoked w ++ [adminLoginCmd c auth]; stdout := stdout w |}).
Proof.
  unfold authenticateAdmin, bind. rewrite CombinedOutput_run.
  now destruct (procErr _).
Qed.

End AuthFacts.

(** C8.  When the admin strategy runs, for every machine, client and
    credentials, exactly one command is started: [docker] with the
    arguments login, the resolved registry host, -u, the username and
    --password-stdin.  The host and the username are among the arguments;
    the arguments are the same whatever the password is, and the password
    is the text on the command's standard input.  The dispatcher runs this
    strategy for the method admin. *)
Theorem C8_admin_password_only_on_stdin
    (os : OS) (c : ACRClient) (auth : AuthConfig) (w : World) :
  invoked (snd (authenticateAdmin os c auth w))
  = invoked w ++ [adminLoginCmd c auth]
  /\ cmdName (adminLoginCmd c auth) = "docker"
  /\ cmdArgs (adminLoginCmd c auth)
     = ["login"; GetRegistryURL c; "-u"; authUsername auth; "--password-stdin"]
  /\ In (GetRegistryURL c) (cmdArgs (adminLoginCmd c auth))
  /\ In (authUsername auth) (cmdArgs (adminLoginCmd c auth))
  /\ (forall password : string,
        cmdArgs (adminLoginCmd c (setPassword auth password))
        = cmdArgs (adminLoginCmd c auth))
  /\ cmdStdin (adminLoginCmd c auth) = Some (authPassword auth)
  /\ Authenticate os c
       (Some {| Method := "admin";
                authClientID := authClientID auth;
                authClientSecret := authClientSecret auth;
                authTenantID := authTenantID auth;
                authUsername := authUsername auth;
                authPassword := authPassword auth |}) w
     = authenticateAdmin os c
         {| Method := "admin";
            authClientID := authClientID auth;
            authClientSecret := authClientSecret auth;
            authTenantID := authTenantID auth;
            authUsername := authUsername auth;
            authPassword := authPassword auth |} w.
Proof.
  rewrite authenticateAdmin_run; simpl.
  repeat split; auto.
Qed.

(** C9 as stated fails: when the login command fails, the two strategies
    have started the same command but return different errors. *)
Lemma C9_failure_results_differ :
  snd (authenticateManagedIdentity osFail (NewACRClient "myregistry") world0)
  = snd (authenticateAzureCLI osFail (NewACRClient "myregistry") world0)
  /\ fst (authenticateAzureCLI osFail (NewACRClient "myregistry") world0)
     = Some ("az acr login failed: exit status 1" +:+ nl +:+ "no session")
  /\ fst (authenticateManagedIdentity osFail (NewACRClient "myregistry") world0)
     = Some ("az acr login with managed identity failed: exit status 1"
             +:+ nl +:+ "no session")
  /\ fst (authenticateManagedIdentity osFail (NewACRClient "myregistry") world0)
     <> fst (authenticateAzureCLI osFail (NewACRClient "myregistry") world0).
Proof. vm_compute. repeat split. discriminate. Qed.

(** C9, amended.  For every registry name and every outcome of the
    external process, the managed-identity strategy and the Azure-CLI
    strategy start the same single command, [az acr login --name] with the
    registry short name, leave the same world behind, and succeed or fail
    together; on failure each wraps the process error and output under its
    own prefix. *)
Theorem C9_managed_identity_same_invocation
    (os : OS) (c : ACRClient) (w : World) :
  snd (authenticateManagedIdentity os c w) = snd (authenticateAzureCLI os c w)
  /\ invoked (snd (authenticateManagedIdentity os c w))
     = invoked w ++ [CommandContext "az" ["acr"; "login"; "--name"; registry c]]
  /\ bool_decide (fst (authenticateManagedIdentity os c w) = None)
     = bool_decide (fst (authenticateAzureCLI os c w) = None)
  /\ fst (authenticateAzureCLI os c w)
     = option_map
         (fun err =>
            "az acr login failed: " +:+ err +:+ nl
            +:+ procOutput (os (invoked w)
                  (CommandContext "az" ["acr"; "login"; "--name"; registry c])))
         (procErr (os (invoked w)
            (CommandContext "az" ["acr"; "login"; "--name"; registry c])))
  /\ fst (authenticateManagedIdentity os c w)
     = option_map
         (fun err =>
            "az acr login with managed identity failed: " +:+ err +:+ nl
            +:+ procOutput (os (invoked w)
                  (CommandContext "az" ["acr"; "login"; "--name"; registry c])))
         (procErr (os (invoked w)
            (CommandContext "az" ["acr"; "login"; "--name"; registry c]))).
Proof.
  rewrite authenticateManagedIdentity_run, authenticateAzureCLI_run; simpl.
  destruct (procErr _); repeat split; reflexivity.
Qed.

(** * The publish loop *)

Section ExecuteFacts.

Variable parser : helpers.ConfigParser.
Variable os : OS.

Lemma dockerTag_run (source target : string) (w : World) :
  dockerTag os source target w
  = (option_map
       (fun err => err +:+ nl +:+ procOutput (os (invoked w) (tagCmd source target)))
       (procErr (os (invoked w) (tagCmd source target))),
     {| invoked := invoked w ++ [tagCmd source target]; stdout := stdout w |}).
Proof.
  unfold dockerTag, bind. rewrite CombinedOutput_run.
  now destruct (procErr _).
Qed.

Lemma dockerPush_run (target : string) (w : World) :
  dockerPush os target w
  = (option_map
       (fun err => err +:+ nl +:+ procOutput (os (invoked w) (pushCmd target)))
       (procErr (os (invoked w) (pushCmd target))),
     {| invoked := invoked w ++ [pushCmd target]; stdout := stdout w |}).
Proof.
  unfold dockerPush, bind. rewrite CombinedOutput_run.
  now destruct (procErr _).
Qed.

Lemma pushImages_skip (cfg : Config) (url : string) (rest acc : list string) :
  pushImages os cfg url ("" :: rest) acc = pushImages os cfg url rest acc.
Proof. reflexivity. Qed.

Lemma keep_false (tag : string) : keep tag = false -> tag = "".
Proof.
  unfold keep. intros H. apply negb_false_iff in H. now apply String.eqb_eq.
Qed.

Lemma keep_true (tag : string) : keep tag = true -> String.eqb tag "" = false.
Proof. unfold keep. intros H. now apply negb_true_iff in H. Qed.

(** In dry-run the loop starts no command and lists every target. *)
Lemma pushImages_dry (cfg : Config) (url : string) :
  DryRun cfg = true ->
  forall (tags acc : list string) (w : World),
    fst (pushImages os cfg url tags acc w)
    = inr (acc ++ map (targetImage cfg url) (List.filter keep tags))
    /\ invoked (snd (pushImages os cfg url tags acc w)) = invoked w.
Proof.
  intros Hdry. induction tags as [|tag rest IH]; intros acc w.
  - simpl. now rewrite app_nil_r.
  - destruct (keep tag) eqn:K.
    + simpl. rewrite K, (keep_true _ K), Hdry. unfold bind, Printf.
      destruct (IH (acc ++ [targetImage cfg url tag])
                  {| invoked := invoked w;
                     stdout :=
                       (stdout w
                        ++ ["[dry-run] Would tag " +:+ SourceImage cfg +:+ " as "
                            +:+ targetImage cfg url tag +:+ nl])
                       ++ ["[dry-run] Would push " +:+ targetImage cfg url tag
                           +:+ nl] |}) as [R I].
      simpl in *. rewrite R, I. now rewrite <- app_assoc.
    + apply keep_false in K as ->. rewrite pushImages_skip. apply IH.
Qed.

Lemma filter_keep_processTags (tags : list string) (ctx : plugin.ReleaseContext) :
  List.filter keep (processTags tags ctx) = processTags tags ctx.
Proof.
  rewrite processTags_filter. induction (map _ tags) as [|x l IH]; simpl; auto.
  destruct (keep x) eqn:K; simpl; rewrite ?K, IH; reflexivity.
Qed.

Lemma DryRun_mergedConfig (req : plugin.ExecuteRequest) :
  DryRun (mergedConfig parser req)
  = DryRun (parseConfig parser (plugin.Config req)) || plugin.DryRun req.
Proof. reflexivity. Qed.

Lemma Execute_dry (req : plugin.ExecuteRequest) (w : World) :
  DryRun (mergedConfig parser req) = true ->
  Execute parser os req w
  = (finish (mergedConfig parser req)
       (GetRegistryURL (NewACRClient (Registry (mergedConfig parser req))))
       (processTags (Tags (mergedConfig parser req)) (plugin.Context req))
       (fst (pushImages os (mergedConfig parser req)
               (GetRegistryURL (NewACRClient (Registry (mergedConfig parser req))))
               (processTags (Tags (mergedConfig parser req)) (plugin.Context req))
               [] w)),
     snd (pushImages os (mergedConfig parser req)
            (GetRegistryURL (NewACRClient (Registry (mergedConfig parser req))))
            (processTags (Tags (mergedConfig parser req)) (plugin.Context req))
            [] w)).
Proof.
  intros Hdry. unfold Execute. rewrite Hdry. unfold bind, ret. simpl.
  destruct (pushImages _ _ _ _ _ _) as [[e | l] w']; reflexivity.
Qed.

Lemma Execute_live (req : plugin.ExecuteRequest) (w : World) :
  DryRun (mergedConfig parser req) = false ->
  Execute parser os req w
  = match fst (Authenticate os (NewACRClient (Registry (mergedConfig parser req)))
                 (Some (authConfigOf (mergedConfig parser req))) w) with
    | Some err =>
        ((None, Some ("failed to authenticate with ACR: " +:+ err)),
         snd (Authenticate os (NewACRClient (Registry (mergedConfig parser req)))
                (Some (authConfigOf (mergedConfig parser req))) w))
    | None =>
        (finish (mergedConfig parser req)
           (GetRegistryURL (NewACRClient (Registry (mergedConfig parser req))))
           (processTags (Tags (mergedConfig parser req)) (plugin.Context req))
           (fst (pushImages os (mergedConfig parser req)
                   (GetRegistryURL (NewACRClient (Registry (mergedConfig parser req))))
                   (processTags (Tags (mergedConfig parser req)) (plugin.Context req))
                   []
                   (snd (Authenticate os
                           (NewACRClient (Registry (mergedConfig parser req)))
                           (Some (authConfigOf (mergedConfig parser req))) w)))),
         snd (pushImages os (mergedConfig parser req)
                (GetRegistryURL (NewACRClient (Registry (mergedConfig parser req))))
                (processTags (Tags (mergedConfig parser req)) (plugin.Context req))
                []
                (snd (Authenticate os
                        (NewACRClient (Registry (mergedConfig parser req)))
                        (Some (authConfigOf (mergedConfig parser req))) w))))
    end.
Proof.
  intros Hlive. unfold Execute. rewrite Hlive. unfold bind, ret. simpl.
  destruct (Authenticate _ _ _ _) as [[e |] w1]; [reflexivity |]. simpl.
  destruct (pushImages _ _ _ _ _ _) as [[e | l] w']; reflexivity.
Qed.

End ExecuteFacts.

(** C2.  If the dry-run flag of the configuration or of the request is
    set, Execute starts no external command at all (no login, no tag, no
    push) and returns a successful response, without error, whose
    pushed-images list holds the target reference of every resolved tag,
    in order. *)
Theorem C2_dry_run_starts_nothing
    (parser : helpers.ConfigParser) (os : OS)
    (req : plugin.ExecuteRequest) (w : World) :
  DryRun (parseConfig parser (plugin.Config req)) || plugin.DryRun req = true ->
  exists resp : plugin.ExecuteResponse,
    fst (Execute parser os req w) = (Some resp, None)
    /\ invoked (snd (Execute parser os req w)) = invoked w
    /\ plugin.Success resp = true
    /\ plugin.Outputs resp !! "pushed_images"
       = Some (AnyStrings
                 (map (targetImage (mergedConfig parser req)
                         (GetRegistryURL
                            (NewACRClient (Registry (mergedConfig parser req)))))
                    (processTags (Tags (mergedConfig parser req))
                       (plugin.Context req)))).
Proof.
  intros Hdry. rewrite <- DryRun_mergedConfig in Hdry.
  rewrite (Execute_dry parser os req w Hdry).
  destruct (pushImages_dry os (mergedConfig parser req)
              (GetRegistryURL (NewACRClient (Registry (mergedConfig parser req))))
              Hdry
              (processTags (Tags (mergedConfig parser req)) (plugin.Context req))
              [] w) as [R I].
  rewrite R, filter_keep_processTags. cbn [fst snd finish app].
  eexists. split; [reflexivity |]. split; [exact I |]. split; [reflexivity |].
  unfold successResponse; cbn [plugin.Outputs].
  now rewrite !lookup_insert_ne, lookup_insert_eq by discriminate.
Qed.

(** C2 at the request of the plugin's dry-run test, on a machine where
    every command would fail. *)
Lemma C2_dry_run_starts_nothing_witness :
  DryRun (parseConfig (helpers.envParser noEnv) (plugin.Config (reqMinimal true)))
  || plugin.DryRun (reqMinimal true) = true
  /\ exists resp : plugin.ExecuteResponse,
    fst (Execute (helpers.envParser noEnv) osFail (reqMinimal true) world0)
    = (Some resp, None)
    /\ invoked (snd (Execute (helpers.envParser noEnv) osFail (reqMinimal true) world0))
       = invoked world0
    /\ plugin.Success resp = true
    /\ plugin.Outputs resp !! "pushed_images"
       = Some (AnyStrings
                 (map (targetImage (mergedConfig (helpers.envParser noEnv) (reqMinimal true))
                         (GetRegistryURL
                            (NewACRClient
                               (Registry (mergedConfig (helpers.envParser noEnv)
                                            (reqMinimal true))))))
                    (processTags
                       (Tags (mergedConfig (helpers.envParser noEnv) (reqMinimal true)))
                       (plugin.Context (reqMinimal true))))).
Proof.
  split; [vm_compute; reflexivity |].
  apply (C2_dry_run_starts_nothing (helpers.envParser noEnv) osFail
           (reqMinimal true) world0).
  vm_compute; reflexivity.
Defined.

Section FailFast.

Variable parser : helpers.ConfigParser.
Variable os : OS.

(** A computation that starts one command and fails exactly when it does. *)
Lemma stopsAtFailure_one {A : Type} (failed : A -> Prop) (m : IO A)
    (w : World) (cmd : Cmd) :
  invoked (snd (m w)) = invoked w ++ [cmd] ->
  (procErr (os (invoked w) cmd) <> None -> failed (fst (m w))) ->
  stopsAtFailure os failed m w [cmd].
Proof.
  intros Hinv Hfail. split; [exact Hinv |].
  intros [|i] c Hc Herr; [| destruct i; discriminate].
  injection Hc as <-. simpl in Herr. rewrite app_nil_r in Herr. auto.
Qed.

Lemma authenticateAzureCLI_stops (c : ACRClient) (w : World) :
  stopsAtFailure os (fun r => r <> None) (authenticateAzureCLI os c) w
    [CommandContext "az" ["acr"; "login"; "--name"; registry c]].
Proof.
  apply stopsAtFailure_one; rewrite authenticateAzureCLI_run; [reflexivity |].
  simpl. destruct (procErr _); congruence.
Qed.

Lemma authenticateManagedIdentity_stops (c : ACRClient) (w : World) :
  stopsAtFailure os (fun r => r <> None) (authenticateManagedIdentity os c) w
    [CommandContext "az" ["acr"; "login"; "--name"; registry c]].
Proof.
  apply stopsAtFailure_one; rewrite authenticateManagedIdentity_run; [reflexivity |].
  simpl. destruct (procErr _); congruence.
Qed.

Lemma authenticateAdmin_stops (c : ACRClient) (auth : AuthConfig) (w : World) :
  stopsAtFailure os (fun r => r <> None) (authenticateAdmin os c auth) w
    [adminLoginCmd c auth].
Proof.
  apply stopsAtFailure_one; rewrite authenticateAdmin_run; [reflexivity |].
  simpl. destruct (procErr _); congruence.
Qed.

Lemma authenticateServicePrincipal_stops
    (c : ACRClient) (auth : AuthConfig) (w : World) :
  exists cmds,
    stopsAtFailure os (fun r => r <> None)
      (authenticateServicePrincipal os c auth) w cmds.
Proof.
  unfold authenticateServicePrincipal, bind. unfold stopsAtFailure.
  rewrite CombinedOutput_run.
  set (login := CommandContext "az" _).
  destruct (procErr (os (invoked w) login)) as [e |] eqn:E.
  - exists [login]. split; [reflexivity |].
    intros [|i] c0 Hc Herr; [| destruct i; discriminate].
    split; [reflexivity | discriminate].
  - rewrite authenticateAzureCLI_run. cbn [fst snd invoked].
    set (acr := CommandContext "az" _).
    exists [login; acr]. split; [now rewrite <- app_assoc |].
    intros [|[|i]] c0 Hc Herr; [| | destruct i; discriminate].
    + injection Hc as <-. simpl in Herr. rewrite app_nil_r in Herr. congruence.
    + injection Hc as <-. simpl in Herr. split; [reflexivity |].
      destruct (procErr (os (invoked w ++ [login]) acr)); congruence.
Qed.

Lemma Authenticate_stops (c : ACRClient) (auth : option AuthConfig) (w : World) :
  exists cmds,
    stopsAtFailure os (fun r => r <> None) (Authenticate os c auth) w cmds.
Proof.
  unfold Authenticate.
  repeat match goal with
         | |- context [if ?b then _ else _] => destruct b
         end.
  - eexists; apply authenticateAzureCLI_stops.
  - apply authenticateServicePrincipal_stops.
  - eexists; apply authenticateAdmin_stops.
  - eexists; apply authenticateManagedIdentity_stops.
  - exists []. split; [simpl; now rewrite app_nil_r |].
    intros i c0 Hc. destruct i; discriminate.
Qed.

(** One turn of the loop for a non-empty tag outside dry-run. *)
Lemma pushImages_step (cfg : Config) (url tag : string)
    (rest acc : list string) (w : World) :
  DryRun cfg = false -> keep tag = true ->
  pushImages os cfg url (tag :: rest) acc w
  = match procErr (os (invoked w)
                     (tagCmd (SourceImage cfg) (targetImage cfg url tag))) with
    | Some e =>
        (inl ("failed to tag image: "
              +:+ (e +:+ nl +:+ procOutput
                     (os (invoked w)
                        (tagCmd (SourceImage cfg) (targetImage cfg url tag))))),
         {| invoked :=
              invoked w ++ [tagCmd (SourceImage cfg) (targetImage cfg url tag)];
            stdout := stdout w |})
    | None =>
        match procErr (os (invoked w
                           ++ [tagCmd (SourceImage cfg) (targetImage cfg url tag)])
                         (pushCmd (targetImage cfg url tag))) with
        | Some e =>
            (inl ("failed to push image: "
                  +:+ (e +:+ nl +:+ procOutput
                         (os (invoked w
                              ++ [tagCmd (SourceImage cfg) (targetImage cfg url tag)])
                            (pushCmd (targetImage cfg url tag))))),
             {| invoked :=
                  (invoked w
                   ++ [tagCmd (SourceImage cfg) (targetImage cfg url tag)])
                  ++ [pushCmd (targetImage cfg url tag)];
                stdout := stdout w |})
        | None =>
            pushImages os cfg url rest (acc ++ [targetImage cfg url tag])
              {| invoked :=
                   (invoked w
                    ++ [tagCmd (SourceImage cfg) (targetImage cfg url tag)])
                   ++ [pushCmd (targetImage cfg url tag)];
                 stdout :=
                   stdout w ++ ["Pushed: " +:+ targetImage cfg url tag +:+ nl] |}
        end
    end.
Proof.
  intros Hlive K. cbn [pushImages]. rewrite (keep_true _ K), Hlive.
  unfold bind at 1. rewrite dockerTag_run.
  destruct (procErr (os (invoked w) _)) as [e |]; [reflexivity |].
  cbn [option_map]. unfold bind at 1. rewrite dockerPush_run. cbn [invoked stdout].
  destruct (procErr (os (invoked w ++ _) _)) as [e |]; reflexivity.
Qed.

(** Outside dry-run the loop works through the plan of the non-empty tags
    in order and stops at the first command that fails. *)
Lemma pushImages_live (cfg : Config) (url : string) :
  DryRun cfg = false ->
  forall (tags acc : list string) (w : World),
  exists cmds,
    cmds `prefix_of` plan cfg url (List.filter keep tags)
    /\ stopsAtFailure os (fun r => exists e, r = inl e)
         (pushImages os cfg url tags acc) w cmds
    /\ (forall l, fst (pushImages os cfg url tags acc w) = inr l ->
        cmds = plan cfg url (List.filter keep tags)).
Proof.
  intros Hlive. induction tags as [|tag rest IH]; intros acc w.
  - exists []. split; [reflexivity |]. split; [| reflexivity].
    split; [simpl; now rewrite app_nil_r |].
    intros i c Hc; destruct i; discriminate.
  - destruct (keep tag) eqn:K; cycle 1.
    { apply keep_false in K as ->. rewrite pushImages_skip. apply IH. }
    cbn [List.filter]. rewrite K.
    change (plan cfg url (tag :: List.filter keep rest))
      with (tagCmd (SourceImage cfg) (targetImage cfg url tag)
            :: pushCmd (targetImage cfg url tag)
            :: plan cfg url (List.filter keep rest)).
    unfold stopsAtFailure. rewrite (pushImages_step cfg url tag rest acc w Hlive K).
    set (t := tagCmd _ _). set (p := pushCmd _).
    destruct (procErr (os (invoked w) t)) as [e |] eqn:Et.
    + exists [t]. split; [now apply prefix_cons, prefix_nil |].
      split; [| discriminate]. split; [reflexivity |].
      intros [|i] c Hc _; [| destruct i; discriminate]. simpl; eauto.
    + destruct (procErr (os (invoked w ++ [t]) p)) as [e |] eqn:Ep.
      * exists [t; p]. split; [now apply prefix_cons, prefix_cons, prefix_nil |].
        split; [| discriminate]. split; [simpl; now rewrite <- app_assoc |].
        intros [|[|i]] c Hc Herr; [| | destruct i; discriminate].
        -- injection Hc as <-. simpl in Herr. rewrite app_nil_r in Herr. congruence.
        -- simpl; eauto.
      * destruct (IH (acc ++ [targetImage cfg url tag])
                    {| invoked := (invoked w ++ [t]) ++ [p];
                       stdout := stdout w
                                 ++ ["Pushed: " +:+ targetImage cfg url tag +:+ nl] |})
          as (cmds & Hpre & [Hinv Hstop] & Hok).
        exists (t :: p :: cmds). split; [now apply prefix_cons, prefix_cons |].
        split; [| intros l Hl; now rewrite (Hok l Hl)].
        split; [rewrite Hinv; simpl; now rewrite <- !app_assoc |].
        intros [|[|i]] c Hc Herr.
        -- injection Hc as <-. simpl in Herr. rewrite app_nil_r in Herr. congruence.
        -- injection Hc as <-. simpl in Herr. congruence.
        -- cbn [lookup list_lookup] in Hc. cbn [take] in Herr.
           destruct (Hstop i c Hc) as [Hlast Hfail].
           { cbn [invoked]. rewrite <- !app_assoc. exact Herr. }
           split; [simpl; now rewrite <- Hlast | exact Hfail].
Qed.

End FailFast.

(** * The model on concrete runs *)

Example processTags_run :
  processTags
    ["{{.Version}}"; "latest"; "{{if .X}}a{{end}}"; "v{{.Version}}-{{.Branch}}"]
    ctx231
  = ["2.3.1"; "latest"; "v2.3.1-{{.Branch}}"].
Proof. vm_compute. reflexivity. Qed.

Example processTags_branch_run :
  processTags ["{{.Branch}}"]
    {| plugin.Version := ""; plugin.PreviousVersion := ""; plugin.TagName := "";
       plugin.ReleaseType := ""; plugin.Branch := "feature/my-feature" |}
  = ["feature-my-feature"].
Proof. vm_compute. reflexivity. Qed.

(** Matches are taken leftmost first and do not overlap. *)
Example ReplaceAll_run :
  ReplaceAll "aaa" "aa" "b" = "ba"
  /\ ReplaceAll "feature/my/branch" "/" "-" = "feature-my-branch"
  /\ ReplaceAll "{{.Version}}-{{.Version}}" "{{.Version}}" "1.0.0" = "1.0.0-1.0.0".
Proof. vm_compute. auto. Qed.

Example GetRegistryURL_run :
  GetRegistryURL (NewACRClient "myregistry") = "myregistry.azurecr.io"
  /\ GetRegistryURL (NewACRClient "myregistry.azurecr.io") = "myregistry.azurecr.io".
Proof. vm_compute. auto. Qed.

(** The first push fails: the tag and push of the second tag are never
    started and the error of the push is returned. *)
Example Execute_push_fails_run :
  fst (Execute (helpers.envParser noEnv) osPushFails (reqMinimal false) world0)
  = (None, Some ("failed to push image: exit status 1" +:+ nl +:+ "denied"))
  /\ invoked (snd (Execute (helpers.envParser noEnv) osPushFails
                     (reqMinimal false) world0))
     = [CommandContext "az" ["acr"; "login"; "--name"; "myregistry"];
        tagCmd "myapp:latest" "myregistry.azurecr.io/myapp:1.0.0";
        pushCmd "myregistry.azurecr.io/myapp:1.0.0"].
Proof. vm_compute. auto. Qed.

(** Every command succeeds: both tags are tagged and pushed in order. *)
Example Execute_all_succeed_run :
  invoked (snd (Execute (helpers.envParser noEnv) osOk (reqMinimal false) world0))
  = [CommandContext "az" ["acr"; "login"; "--name"; "myregistry"];
     tagCmd "myapp:latest" "myregistry.azurecr.io/myapp:1.0.0";
     pushCmd "myregistry.azurecr.io/myapp:1.0.0";
     tagCmd "myapp:latest" "myregistry.azurecr.io/myapp:latest";
     pushCmd "myregistry.azurecr.io/myapp:latest"]
  /\ snd (fst (Execute (helpers.envParser noEnv) osOk (reqMinimal false) world0))
     = None.
Proof. vm_compute. auto. Qed.

(** Dry-run on a machine where every command would fail. *)
Example Execute_dry_run :
  snd (Execute (helpers.envParser noEnv) osFail (reqMinimal true) world0)
  = {| invoked := [];
       stdout :=
         ["[dry-run] Would tag myapp:latest as myregistry.azurecr.io/myapp:1.0.0" +:+ nl;
          "[dry-run] Would push myregistry.azurecr.io/myapp:1.0.0" +:+ nl;
          "[dry-run] Would tag myapp:latest as myregistry.azurecr.io/myapp:latest" +:+ nl;
          "[dry-run] Would push myregistry.azurecr.io/myapp:latest" +:+ nl] |}.
Proof. vm_compute. reflexivity. Qed.

(** * Further properties of the code *)

(** ** Strings without a match *)

Lemma append_nil_r (a : string) : a +:+ "" = a.
Proof. induction a as [|c a IH]; simpl; [reflexivity | now rewrite IH]. Qed.

Lemma append_append (a b c : string) : (a +:+ b) +:+ c = a +:+ (b +:+ c).
Proof. induction a as [|x a IH]; simpl; [reflexivity | now rewrite IH]. Qed.

Lemma HasPrefix_refl (s : string) : HasPrefix s s = true.
Proof. rewrite <- (append_nil_r s) at 1. apply HasPrefix_append. Qed.

Lemma HasPrefix_shorter (s p q : string) :
  HasPrefix s (p +:+ q) = true -> HasPrefix s p = true.
Proof.
  intros H. apply HasPrefix_inv in H as [r ->].
  rewrite append_append. apply HasPrefix_append.
Qed.

Lemma Contains_shorter (s p q : string) :
  Contains s (p +:+ q) = true -> Contains s p = true.
Proof.
  induction s as [|c s IH]; intros H.
  - apply Contains_here. now apply HasPrefix_shorter with q.
  - apply Contains_cons_inv in H as [H | H].
    + apply Contains_here. now apply HasPrefix_shorter with q.
    + now apply Contains_later, IH.
Qed.

Lemma Contains_cons_false (c : ascii) (s p : string) :
  Contains (String c s) p = false ->
  HasPrefix (String c s) p = false /\ Contains s p = false.
Proof. simpl. intros H. now apply orb_false_iff in H. Qed.

(** Where [old] does not occur, nothing is replaced. *)
Lemma ReplaceAll_absent (s old new : string) :
  Contains s old = false -> ReplaceAll s old new = s.
Proof.
  unfold ReplaceAll. destruct old as [|d o]; [reflexivity |].
  induction s as [|c s IH]; intros H; [reflexivity |].
  apply Contains_cons_false in H as [H1 H2].
  rewrite replaceScan_nomatch by exact H1. now rewrite IH.
Qed.

(** A text without [{{] holds none of the placeholders. *)
Lemma ReplaceAll_no_braces (s q new : string) :
  Contains s "{{" = false ->
  ReplaceAll s (String "{" (String "{" q)) new = s.
Proof.
  intros H. apply ReplaceAll_absent.
  destruct (Contains s (String "{" (String "{" q))) eqn:E; [| reflexivity].
  apply (Contains_shorter s "{{" q) in E. congruence.
Qed.

(** ** The registry endpoint *)

(** X1.  For every registry name, the resolved host ends with
    [.azurecr.io] and begins with the name as configured. *)
Theorem X1_GetRegistryURL_suffix_and_prefix (c : ACRClient) :
  HasSuffix (GetRegistryURL c) ".azurecr.io" = true
  /\ HasPrefix (GetRegistryURL c) (registry c) = true.
Proof.
  unfold GetRegistryURL.
  destruct (HasSuffix (registry c) ".azurecr.io") eqn:E.
  - split; [exact E | apply HasPrefix_refl].
  - split; [apply HasSuffix_append | apply HasPrefix_append].
Qed.

(** X2.  A short registry name and the same name with [.azurecr.io]
    appended resolve to the same host. *)
Theorem X2_GetRegistryURL_short_and_full_agree (r : string) :
  HasSuffix r ".azurecr.io" = false ->
  GetRegistryURL (NewACRClient (r +:+ ".azurecr.io"))
  = GetRegistryURL (NewACRClient r).
Proof.
  intros H. unfold GetRegistryURL, NewACRClient; cbn [registry].
  now rewrite H, HasSuffix_append.
Qed.

Lemma X2_GetRegistryURL_short_and_full_agree_witness :
  HasSuffix "contoso" ".azurecr.io" = false
  /\ GetRegistryURL (NewACRClient ("contoso" +:+ ".azurecr.io"))
     = GetRegistryURL (NewACRClient "contoso").
Proof.
  split; [reflexivity |].
  apply (X2_GetRegistryURL_short_and_full_agree "contoso"). reflexivity.
Defined.

(** ** Literal tags and single placeholders *)

Lemma processTemplate_no_braces (tmpl : string) (ctx : plugin.ReleaseContext) :
  Contains tmpl "{{" = false -> processTemplate tmpl ctx = tmpl.
Proof.
  intros H. unfold processTemplate.
  assert (Hif : Contains tmpl "{{if" = false).
  { destruct (Contains tmpl "{{if") eqn:E; [| reflexivity].
    apply (Contains_shorter tmpl "{{" "if") in E. congruence. }
  rewrite Hif.
  rewrite !(ReplaceAll_no_braces tmpl _ _ H).
  now destruct (negb (String.eqb (plugin.Branch ctx) "")).
Qed.

(** X3.  A template without the text [{{] is a literal tag: it resolves
    to itself for every release context. *)
Theorem X3_processTemplate_literal (tmpl : string) (ctx : plugin.ReleaseContext) :
  Contains tmpl "{{" = false ->
  processTemplate tmpl ctx = tmpl.
Proof. apply processTemplate_no_braces. Qed.

Lemma X3_processTemplate_literal_witness :
  Contains "latest" "{{" = false
  /\ processTemplate "latest" ctxBranch = "latest".
Proof.
  split; [reflexivity |].
  apply (X3_processTemplate_literal "latest" ctxBranch). reflexivity.
Defined.

(** X4.  A list of literal tags resolves to itself with exactly the empty
    tags left out, in the same order. *)
Theorem X4_processTags_literals (tags : list string) (ctx : plugin.ReleaseContext) :
  Forall (fun tag => Contains tag "{{" = false) tags ->
  processTags tags ctx
  = List.filter (fun tag => negb (String.eqb tag "")) tags.
Proof.
  intros H. rewrite processTags_filter.
  induction H as [|tag tags Htag _ IH]; [reflexivity |].
  cbn [map List.filter]. rewrite (processTemplate_no_braces tag ctx Htag), IH. reflexivity.
Qed.

Lemma X4_processTags_literals_witness :
  Forall (fun tag => Contains tag "{{" = false) ["1.0.0"; ""; "latest"]
  /\ processTags ["1.0.0"; ""; "latest"] ctxBranch
     = List.filter (fun tag => negb (String.eqb tag "")) ["1.0.0"; ""; "latest"].
Proof.
  split; [repeat constructor |].
  apply (X4_processTags_literals ["1.0.0"; ""; "latest"] ctxBranch).
  repeat constructor.
Defined.

(** ** The branch and the default tag *)

Lemma replace_slash_scan (s : string) :
  Contains (replaceScan "/" "-" 0 s) "/" = false
  /\ String.length (replaceScan "/" "-" 0 s) = String.length s.
Proof.
  induction s as [|c s [IHc IHl]]; [split; reflexivity |].
  destruct (HasPrefix (String c s) "/") eqn:E.
  - rewrite replaceScan_match by (discriminate || exact E).
    cbn [String.length drop]. change ("-" +:+ replaceScan "/" "-" 0 s)
      with (String "-" (replaceScan "/" "-" 0 s)).
    split; [| cbn [String.length]; now rewrite IHl].
    cbn [Contains]. rewrite IHc. reflexivity.
  - rewrite replaceScan_nomatch by exact E.
    split; [| cbn [String.length]; now rewrite IHl].
    cbn [Contains]. rewrite IHc, orb_false_r.
    destruct s; exact E.
Qed.

(** X5.  For every release context with a non-empty branch, the template
    [{{.Branch}}] resolves to the branch with its slashes replaced by
    dashes: the tag holds no slash and is as long as the branch. *)
Theorem X5_branch_tag_has_no_slash (ctx : plugin.ReleaseContext) :
  plugin.Branch ctx <> "" ->
  processTemplate "{{.Branch}}" ctx = ReplaceAll (plugin.Branch ctx) "/" "-"
  /\ Contains (processTemplate "{{.Branch}}" ctx) "/" = false
  /\ String.length (processTemplate "{{.Branch}}" ctx)
     = String.length (plugin.Branch ctx).
Proof.
  intros Hb.
  assert (E : processTemplate "{{.Branch}}" ctx
              = ReplaceAll (plugin.Branch ctx) "/" "-").
  { unfold processTemplate. apply String.eqb_neq in Hb. rewrite Hb.
    cbn [negb]. change (Contains "{{.Branch}}" "{{if") with false. cbv iota.
    change (ReplaceAll "{{.Branch}}" "{{.Version}}" (plugin.Version ctx))
      with "{{.Branch}}".
    change (ReplaceAll "{{.Branch}}" "{{.PreviousVersion}}"
              (plugin.PreviousVersion ctx)) with "{{.Branch}}".
    change (ReplaceAll "{{.Branch}}" "{{.TagName}}" (plugin.TagName ctx))
      with "{{.Branch}}".
    change (ReplaceAll "{{.Branch}}" "{{.ReleaseType}}" (plugin.ReleaseType ctx))
      with "{{.Branch}}".
    change (ReplaceAll "{{.Branch}}" "{{.Branch}}"
              (ReplaceAll (plugin.Branch ctx) "/" "-"))
      with (ReplaceAll (plugin.Branch ctx) "/" "-" +:+ "").
    apply append_nil_r. }
  rewrite E. unfold ReplaceAll.
  destruct (replace_slash_scan (plugin.Branch ctx)) as [Hc Hl]. auto.
Qed.

Lemma X5_branch_tag_has_no_slash_witness :
  plugin.Branch ctxBranch <> ""
  /\ processTemplate "{{.Branch}}" ctxBranch
     = ReplaceAll (plugin.Branch ctxBranch) "/" "-"
  /\ Contains (processTemplate "{{.Branch}}" ctxBranch) "/" = false
  /\ String.length (processTemplate "{{.Branch}}" ctxBranch)
     = String.length (plugin.Branch ctxBranch).
Proof.
  split; [discriminate |].
  apply (X5_branch_tag_has_no_slash ctxBranch). discriminate.
Defined.

Lemma processTemplate_version_placeholder (ctx : plugin.ReleaseContext) :
  Contains (plugin.Version ctx) "{{" = false ->
  processTemplate "{{.Version}}" ctx = plugin.Version ctx.
Proof.
  intros H. unfold processTemplate.
  change (Contains "{{.Version}}" "{{if") with false. cbv iota.
  change (ReplaceAll "{{.Version}}" "{{.Version}}" (plugin.Version ctx))
    with (plugin.Version ctx +:+ "").
  rewrite append_nil_r, !(ReplaceAll_no_braces _ _ _ H).
  now destruct (negb (String.eqb (plugin.Branch ctx) "")).
Qed.

(** X6.  When the parser finds no tags in the configuration, the tags
    default to the single template [{{.Version}}]; for a version without
    the text [{{] the resolved tags are then the version alone, or nothing
    at all when the version is empty. *)
Theorem X6_default_tag_is_the_version
    (parser : helpers.ConfigParser) (raw : gmap string any)
    (ctx : plugin.ReleaseContext) :
  helpers.GetStringSlice parser raw "tags" [] = [] ->
  Contains (plugin.Version ctx) "{{" = false ->
  Tags (parseConfig parser raw) = ["{{.Version}}"]
  /\ processTags (Tags (parseConfig parser raw)) ctx
     = if String.eqb (plugin.Version ctx) "" then [] else [plugin.Version ctx].
Proof.
  intros Hnone Hv.
  assert (E : Tags (parseConfig parser raw) = ["{{.Version}}"]).
  { unfold parseConfig. rewrite Hnone.
    destruct (raw !! "auth") as [[]|]; reflexivity. }
  split; [exact E |].
  rewrite E, processTags_cons, (processTemplate_version_placeholder ctx Hv).
  unfold keep. now destruct (String.eqb (plugin.Version ctx) "").
Qed.

Lemma X6_default_tag_is_the_version_witness :
  helpers.GetStringSlice (helpers.envParser noEnv) ∅ "tags" [] = []
  /\ Contains (plugin.Version ctxBranch) "{{" = false
  /\ Tags (parseConfig (helpers.envParser noEnv) ∅) = ["{{.Version}}"]
  /\ processTags (Tags (parseConfig (helpers.envParser noEnv) ∅)) ctxBranch
     = if String.eqb (plugin.Version ctxBranch) "" then []
       else [plugin.Version ctxBranch].
Proof.
  split; [reflexivity |]. split; [reflexivity |].
  apply (X6_default_tag_is_the_version (helpers.envParser noEnv) ∅ ctxBranch);
    reflexivity.
Defined.

(** ** Target references *)

Lemma append_cancel_l (a b c : string) : a +:+ b = a +:+ c -> b = c.
Proof.
  induction a as [|x a IH]; simpl; intros H; [exact H |].
  injection H as H. now apply IH.
Qed.

Lemma targetImage_inj (cfg : Config) (registryURL t1 t2 : string) :
  targetImage cfg registryURL t1 = targetImage cfg registryURL t2 -> t1 = t2.
Proof.
  unfold targetImage. intros H.
  now repeat apply append_cancel_l in H.
Qed.

(** X7.  Under one configuration and host, different tags give different
    target references: a list of tags without duplicates gives a list of
    references without duplicates. *)
Theorem X7_targetImage_distinct_tags
    (cfg : Config) (registryURL : string) (tags : list string) :
  NoDup tags -> NoDup (map (targetImage cfg registryURL) tags).
Proof.
  intros H.
  apply (@NoDup_fmap_2 _ _ (targetImage cfg registryURL)
           (targetImage_inj cfg registryURL) tags H).
Qed.

Lemma X7_targetImage_distinct_tags_witness :
  NoDup ["1.0.0"; "latest"]
  /\ NoDup (map (targetImage (mergedConfig (helpers.envParser noEnv)
                                (reqMinimal false))
                   "myregistry.azurecr.io")
              ["1.0.0"; "latest"]).
Proof.
  assert (H : NoDup ["1.0.0"; "latest"]).
  { apply NoDup_cons. split; [| apply NoDup_singleton].
    intros Hin. apply list_elem_of_singleton in Hin. discriminate. }
  split; [exact H |].
  apply (X7_targetImage_distinct_tags _ "myregistry.azurecr.io" _ H).
Defined.

(** ** Validation *)

(** The errors of [Validate], check by check. *)
Lemma Validate_errors (parser : helpers.ConfigParser) (raw : gmap string any) :
  plugin.Errors (fst (Validate parser raw))
  = (if String.eqb (Registry (parseConfig parser raw)) ""
     then [{| plugin.Field := "registry";
              plugin.ErrMessage := "ACR registry name is required" |}]
     else [])
    ++ (if String.eqb (Image (parseConfig parser raw)) ""
        then [{| plugin.Field := "image";
                 plugin.ErrMessage := "image name is required" |}]
        else [])
    ++ (if String.eqb (SourceImage (parseConfig parser raw)) ""
        then [{| plugin.Field := "source_image";
                 plugin.ErrMessage := "source image is required" |}]
        else [])
    ++ (if existsb (String.eqb (AuthMethod (parseConfig parser raw)))
             ["azure_cli"; "service_principal"; "admin"; "managed_identity"; ""]
        then []
        else [{| plugin.Field := "auth.method";
                 plugin.ErrMessage :=
                   "auth method must be 'azure_cli', 'service_principal', 'admin', or 'managed_identity'" |}])
    ++ (if String.eqb (AuthMethod (parseConfig parser raw)) "service_principal"
           && (String.eqb (ClientID (parseConfig parser raw)) ""
               || String.eqb (ClientSecret (parseConfig parser raw)) ""
               || String.eqb (TenantID (parseConfig parser raw)) "")
        then [{| plugin.Field := "auth";
                 plugin.ErrMessage :=
                   "service principal requires client_id, client_secret, and tenant_id" |}]
        else [])
    ++ (if String.eqb (AuthMethod (parseConfig parser raw)) "admin"
           && (String.eqb (Username (parseConfig parser raw)) ""
               || String.eqb (Password (parseConfig parser raw)) "")
        then [{| plugin.Field := "auth";
                 plugin.ErrMessage := "admin auth requires username and password" |}]
        else []).
Proof.
  unfold Validate. generalize (parseConfig parser raw) as cfg. intros cfg.
  cbn [fst helpers.Build plugin.Errors].
  unfold helpers.AddError, helpers.NewValidationBuilder.
  destruct (String.eqb (Registry cfg) ""), (String.eqb (Image cfg) ""),
    (String.eqb (SourceImage cfg) "");
    destruct (existsb _ _);
    destruct (String.eqb (AuthMethod cfg) "service_principal");
    destruct (String.eqb (AuthMethod cfg) "admin");
    cbn [negb andb app];
    try destruct (String.eqb (ClientID cfg) "" || String.eqb (ClientSecret cfg) ""
                  || String.eqb (TenantID cfg) "");
    try destruct (String.eqb (Username cfg) "" || String.eqb (Password cfg) "");
    reflexivity.
Qed.

Lemma Valid_Errors (parser : helpers.ConfigParser) (raw : gmap string any) :
  plugin.Valid (fst (Validate parser raw))
  = match plugin.Errors (fst (Validate parser raw)) with
    | [] => true
    | _ => false
    end.
Proof. reflexivity. Qed.

(** X8.  Validate answers valid exactly when registry, image and source
    image are non-empty, the auth method is one of azure_cli,
    service_principal, admin, managed_identity or the empty string, a
    service principal has client id, client secret and tenant id, and an
    admin has username and password. *)
Theorem X8_Validate_valid_exactly_when
    (parser : helpers.ConfigParser) (raw : gmap string any) :
  plugin.Valid (fst (Validate parser raw))
  = negb (String.eqb (Registry (parseConfig parser raw)) "")
    && negb (String.eqb (Image (parseConfig parser raw)) "")
    && negb (String.eqb (SourceImage (parseConfig parser raw)) "")
    && existsb (String.eqb (AuthMethod (parseConfig parser raw)))
         ["azure_cli"; "service_principal"; "admin"; "managed_identity"; ""]
    && negb (String.eqb (AuthMethod (parseConfig parser raw)) "service_principal"
             && (String.eqb (ClientID (parseConfig parser raw)) ""
                 || String.eqb (ClientSecret (parseConfig parser raw)) ""
                 || String.eqb (TenantID (parseConfig parser raw)) ""))
    && negb (String.eqb (AuthMethod (parseConfig parser raw)) "admin"
             && (String.eqb (Username (parseConfig parser raw)) ""
                 || String.eqb (Password (parseConfig parser raw)) "")).
Proof.
  rewrite Valid_Errors, Validate_errors.
  generalize (parseConfig parser raw) as cfg. intros cfg.
  destruct (String.eqb (Registry cfg) ""), (String.eqb (Image cfg) ""),
    (String.eqb (SourceImage cfg) ""); try reflexivity.
  destruct (existsb _ _); try reflexivity.
  destruct (String.eqb (AuthMethod cfg) "service_principal"
            && (String.eqb (ClientID cfg) "" || String.eqb (ClientSecret cfg) ""
                || String.eqb (TenantID cfg) "")); try reflexivity.
  destruct (String.eqb (AuthMethod cfg) "admin"
            && (String.eqb (Username cfg) "" || String.eqb (Password cfg) ""));
    reflexivity.
Qed.

(** X9.  Validate reports its errors in a fixed order of fields --
    registry, image, source_image, auth.method, auth -- each at most once:
    never more than four errors, and never an auth.method error together
    with a missing-credentials error. *)
Theorem X9_Validate_error_fields
    (parser : helpers.ConfigParser) (raw : gmap string any) :
  (map plugin.Field (plugin.Errors (fst (Validate parser raw)))
     `sublist_of` ["registry"; "image"; "source_image"; "auth.method"]
   \/ map plugin.Field (plugin.Errors (fst (Validate parser raw)))
      `sublist_of` ["registry"; "image"; "source_image"; "auth"])
  /\ length (plugin.Errors (fst (Validate parser raw))) <= 4.
Proof.
  rewrite Validate_errors.
  generalize (parseConfig parser raw) as cfg. intros cfg.
  assert (Hsub : forall l : list string,
             l `sublist_of` ["registry"; "image"; "source_image"; "auth.method"]
             \/ l `sublist_of` ["registry"; "image"; "source_image"; "auth"] ->
             length l <= 4).
  { intros l [H | H]; apply sublist_length in H; exact H. }
  match goal with |- ?P /\ _ => assert (Hp : P) end; cycle 1.
  { split; [exact Hp |]. apply Hsub in Hp. now rewrite length_map in Hp. }
  destruct (String.eqb_spec (AuthMethod cfg) "service_principal") as [-> | Hsp].
  - cbn [existsb String.eqb Ascii.eqb Bool.eqb orb andb app].
    right.
    destruct (String.eqb (Registry cfg) ""), (String.eqb (Image cfg) ""),
      (String.eqb (SourceImage cfg) "");
      destruct (String.eqb (ClientID cfg) "" || String.eqb (ClientSecret cfg) ""
                || String.eqb (TenantID cfg) "");
      cbn [app map plugin.Field];
      repeat first [apply sublist_nil | apply sublist_skip | apply sublist_cons].
  - destruct (String.eqb_spec (AuthMethod cfg) "admin") as [-> | Hadm].
    + cbn [existsb String.eqb Ascii.eqb Bool.eqb orb andb app].
      right.
      destruct (String.eqb (Registry cfg) ""), (String.eqb (Image cfg) ""),
        (String.eqb (SourceImage cfg) "");
        destruct (String.eqb (Username cfg) "" || String.eqb (Password cfg) "");
        cbn [app map plugin.Field];
        repeat first [apply sublist_nil | apply sublist_skip | apply sublist_cons].
    + left. cbn [andb].
      destruct (String.eqb (Registry cfg) ""), (String.eqb (Image cfg) ""),
        (String.eqb (SourceImage cfg) "");
        destruct (existsb _ _);
        cbn [app map plugin.Field];
        repeat first [apply sublist_nil | apply sublist_skip | apply sublist_cons].
Qed.

(** ** Configuration parsing *)

(** X10.  The parsed configuration always has at least one tag template,
    whatever the parser finds in the map. *)
Theorem X10_parseConfig_tags_never_empty
    (parser : helpers.ConfigParser) (raw : gmap string any) :
  Tags (parseConfig parser raw) <> []
  /\ 1 <= length (Tags (parseConfig parser raw)).
Proof.
  unfold parseConfig.
  destruct (helpers.GetStringSlice parser raw "tags" []) as [|t l] eqn:E;
    destruct (raw !! "auth") as [[]|]; cbn [length Nat.eqb Tags];
    split; (congruence || lia).
Qed.

(** X11.  When the configuration has no [auth] entry that is a map, the
    method is azure_cli and every credential is empty for every parser:
    the environment variables that name credentials are not consulted. *)
Theorem X11_parseConfig_without_auth_map
    (parser : helpers.ConfigParser) (raw : gmap string any) :
  (forall authRaw : gmap string any, raw !! "auth" <> Some (AnyMap authRaw)) ->
  AuthMethod (parseConfig parser raw) = "azure_cli"
  /\ ClientID (parseConfig parser raw) = ""
  /\ ClientSecret (parseConfig parser raw) = ""
  /\ TenantID (parseConfig parser raw) = ""
  /\ Username (parseConfig parser raw) = ""
  /\ Password (parseConfig parser raw) = "".
Proof.
  intros H. unfold parseConfig.
  destruct (raw !! "auth") as [[| | | | | | authRaw]|] eqn:E;
    try (repeat split; reflexivity).
  now destruct (H authRaw).
Qed.

Lemma X11_parseConfig_without_auth_map_witness :
  (forall authRaw : gmap string any,
      rawAuthText !! "auth" <> Some (AnyMap authRaw))
  /\ AuthMethod (parseConfig (helpers.envParser envFull) rawAuthText) = "azure_cli"
  /\ ClientID (parseConfig (helpers.envParser envFull) rawAuthText) = ""
  /\ ClientSecret (parseConfig (helpers.envParser envFull) rawAuthText) = ""
  /\ TenantID (parseConfig (helpers.envParser envFull) rawAuthText) = ""
  /\ Username (parseConfig (helpers.envParser envFull) rawAuthText) = ""
  /\ Password (parseConfig (helpers.envParser envFull) rawAuthText) = "".
Proof.
  assert (H : forall authRaw : gmap string any,
             rawAuthText !! "auth" <> Some (AnyMap authRaw)).
  { intros authRaw. unfold rawAuthText. rewrite lookup_insert_eq. discriminate. }
  split; [exact H |].
  apply (X11_parseConfig_without_auth_map (helpers.envParser envFull) rawAuthText H).
Defined.

(** ** The authentication dispatcher *)

Section DispatchFacts.

Variable os : OS.

Lemma existsb_methods_false (m : string) :
  existsb (String.eqb m)
    ["azure_cli"; "service_principal"; "admin"; "managed_identity"; ""] = false ->
  String.eqb m "azure_cli" = false /\ String.eqb m "service_principal" = false
  /\ String.eqb m "admin" = false /\ String.eqb m "managed_identity" = false
  /\ String.eqb m "" = false.
Proof.
  cbn [existsb]. intros H.
  repeat (apply orb_false_iff in H as [? H]). auto.
Qed.

Lemma Authenticate_unknown (c : ACRClient) (auth : AuthConfig) (w : World) :
  existsb (String.eqb (Method auth))
    ["azure_cli"; "service_principal"; "admin"; "managed_identity"; ""] = false ->
  Authenticate os c (Some auth) w
  = (Some ("unknown auth method: " +:+ Method auth), w).
Proof.
  intros H. apply existsb_methods_false in H as (H1 & H2 & H3 & H4 & H5).
  unfold Authenticate. now rewrite H1, H2, H3, H4, H5.
Qed.

Lemma authenticateServicePrincipal_run
    (c : ACRClient) (auth : AuthConfig) (w : World) :
  authenticateServicePrincipal os c auth w
  = match procErr (os (invoked w)
                     (CommandContext "az"
                        ["login"; "--service-principal";
                         "-u"; authClientID auth;
                         "-p"; authClientSecret auth;
                         "--tenant"; authTenantID auth])) with
    | Some err =>
        (Some ("azure login failed: " +:+ err +:+ nl
               +:+ procOutput (os (invoked w)
                     (CommandContext "az"
                        ["login"; "--service-principal";
                         "-u"; authClientID auth;
                         "-p"; authClientSecret auth;
                         "--tenant"; authTenantID auth]))),
         {| invoked :=
              invoked w
              ++ [CommandContext "az"
                    ["login"; "--service-principal";
                     "-u"; authClientID auth;
                     "-p"; authClientSecret auth;
                     "--tenant"; authTenantID auth]];
            stdout := stdout w |})
    | None =>
        authenticateAzureCLI os c
          {| invoked :=
               invoked w
               ++ [CommandContext "az"
                     ["login"; "--service-principal";
                      "-u"; authClientID auth;
                      "-p"; authClientSecret auth;
                      "--tenant"; authTenantID auth]];
             stdout := stdout w |}
    end.
Proof.
  unfold authenticateServicePrincipal, bind. rewrite CombinedOutput_run.
  now destruct (procErr _).
Qed.

(** Every strategy starts a command. *)
Lemma Authenticate_known (c : ACRClient) (auth : AuthConfig) (w : World) :
  existsb (String.eqb (Method auth))
    ["azure_cli"; "service_principal"; "admin"; "managed_identity"; ""] = true ->
  exists (cmd : Cmd) (rest : list Cmd),
    invoked (snd (Authenticate os c (Some auth) w)) = invoked w ++ cmd :: rest.
Proof.
  intros H. unfold Authenticate.
  destruct (String.eqb (Method auth) "azure_cli" || String.eqb (Method auth) "")
    eqn:E1.
  { rewrite authenticateAzureCLI_run. eexists _, []. reflexivity. }
  apply orb_false_iff in E1 as [E1 E5].
  destruct (String.eqb (Method auth) "service_principal") eqn:E2.
  { rewrite authenticateServicePrincipal_run.
    destruct (procErr _); [eexists _, []; reflexivity |].
    rewrite authenticateAzureCLI_run. cbn [snd invoked].
    eexists _, [_]. now rewrite <- app_assoc. }
  destruct (String.eqb (Method auth) "admin") eqn:E3.
  { rewrite authenticateAdmin_run. eexists _, []. reflexivity. }
  destruct (String.eqb (Method auth) "managed_identity") eqn:E4.
  { rewrite authenticateManagedIdentity_run. eexists _, []. reflexivity. }
  cbn [existsb] in H. rewrite E1, E2, E3, E4, E5 in H. discriminate.
Qed.

End DispatchFacts.

(** X12.  For a method other than azure_cli, service_principal, admin,
    managed_identity and the empty string, Authenticate starts no command
    and returns the error that names the method. *)
Theorem X12_Authenticate_unknown_method
    (os : OS) (c : ACRClient) (auth : AuthConfig) (w : World) :
  existsb (String.eqb (Method auth))
    ["azure_cli"; "service_principal"; "admin"; "managed_identity"; ""] = false ->
  Authenticate os c (Some auth) w
  = (Some ("unknown auth method: " +:+ Method auth), w).
Proof. apply Authenticate_unknown. Qed.

Lemma X12_Authenticate_unknown_method_witness :
  existsb (String.eqb (Method bogusAuth))
    ["azure_cli"; "service_principal"; "admin"; "managed_identity"; ""] = false
  /\ Authenticate osOk (NewACRClient "myregistry") (Some bogusAuth) world0
     = (Some ("unknown auth method: " +:+ Method bogusAuth), world0).
Proof.
  split; [reflexivity |].
  apply (X12_Authenticate_unknown_method osOk (NewACRClient "myregistry")
           bogusAuth world0).
  reflexivity.
Defined.

(** X13.  The service-principal strategy first starts [az login] with the
    client id, the client secret and the tenant as arguments and nothing
    on standard input; [az acr login] for the registry follows only when
    that login succeeded.  A failed login is reported as the azure login
    error; otherwise the result is that of the registry login. *)
Theorem X13_service_principal_two_steps
    (os : OS) (c : ACRClient) (auth : AuthConfig) (w : World) :
  invoked (snd (authenticateServicePrincipal os c auth w))
  = invoked w
    ++ CommandContext "az"
         ["login"; "--service-principal";
          "-u"; authClientID auth;
          "-p"; authClientSecret auth;
          "--tenant"; authTenantID auth]
    :: match procErr (os (invoked w)
                        (CommandContext "az"
                           ["login"; "--service-principal";
                            "-u"; authClientID auth;
                            "-p"; authClientSecret auth;
                            "--tenant"; authTenantID auth])) with
       | Some _ => []
       | None => [CommandContext "az" ["acr"; "login"; "--name"; registry c]]
       end
  /\ fst (authenticateServicePrincipal os c auth w)
     = match procErr (os (invoked w)
                        (CommandContext "az"
                           ["login"; "--service-principal";
                            "-u"; authClientID auth;
                            "-p"; authClientSecret auth;
                            "--tenant"; authTenantID auth])) with
       | Some err =>
           Some ("azure login failed: " +:+ err +:+ nl
                 +:+ procOutput (os (invoked w)
                       (CommandContext "az"
                          ["login"; "--service-principal";
                           "-u"; authClientID auth;
                           "-p"; authClientSecret auth;
                           "--tenant"; authTenantID auth])))
       | None =>
           fst (authenticateAzureCLI os c
                  {| invoked :=
                       invoked w
                       ++ [CommandContext "az"
                             ["login"; "--service-principal";
                              "-u"; authClientID auth;
                              "-p"; authClientSecret auth;
                              "--tenant"; authTenantID auth]];
                     stdout := stdout w |})
       end.
Proof.
  rewrite authenticateServicePrincipal_run.
  destruct (procErr _); [split; reflexivity |].
  rewrite authenticateAzureCLI_run. cbn [fst snd invoked].
  split; [now rewrite <- app_assoc | reflexivity].
Qed.

(** X14.  Authenticate returns no error only if it started at least one
    command and every command it started succeeded. *)
Theorem X14_Authenticate_success_means_all_succeeded
    (os : OS) (c : ACRClient) (auth : AuthConfig) (w : World) (cmds : list Cmd) :
  invoked (snd (Authenticate os c (Some auth) w)) = invoked w ++ cmds ->
  fst (Authenticate os c (Some auth) w) = None ->
  cmds <> []
  /\ forall (i : nat) (cmd : Cmd),
       cmds !! i = Some cmd ->
       procErr (os (invoked w ++ take i cmds) cmd) = None.
Proof.
  intros Hinv Hok. split.
  - destruct (existsb (String.eqb (Method auth))
                ["azure_cli"; "service_principal"; "admin"; "managed_identity"; ""])
      eqn:E.
    + destruct (Authenticate_known os c auth w E) as (cmd & rest & H).
      rewrite Hinv in H. apply app_inv_head in H. now subst.
    + rewrite (Authenticate_unknown os c auth w E) in Hok. discriminate.
  - destruct (Authenticate_stops os c (Some auth) w) as (cmds' & Hinv' & Hstop).
    rewrite Hinv in Hinv'. apply app_inv_head in Hinv'. subst cmds'.
    intros i cmd Hc.
    destruct (procErr (os (invoked w ++ take i cmds) cmd)) as [e |] eqn:E;
      [| reflexivity].
    destruct (Hstop i cmd Hc) as [_ Hfail]; [congruence | contradiction].
Qed.

Lemma X14_Authenticate_success_means_all_succeeded_witness :
  invoked (snd (Authenticate osOk (NewACRClient "myregistry") (Some spAuth) world0))
  = invoked world0
    ++ [CommandContext "az"
          ["login"; "--service-principal"; "-u"; "my-client-id";
           "-p"; "my-secret"; "--tenant"; "my-tenant"];
        CommandContext "az" ["acr"; "login"; "--name"; "myregistry"]]
  /\ fst (Authenticate osOk (NewACRClient "myregistry") (Some spAuth) world0) = None
  /\ [CommandContext "az"
        ["login"; "--service-principal"; "-u"; "my-client-id";
         "-p"; "my-secret"; "--tenant"; "my-tenant"];
      CommandContext "az" ["acr"; "login"; "--name"; "myregistry"]] <> []
  /\ forall (i : nat) (cmd : Cmd),
       [CommandContext "az"
          ["login"; "--service-principal"; "-u"; "my-client-id";
           "-p"; "my-secret"; "--tenant"; "my-tenant"];
        CommandContext "az" ["acr"; "login"; "--name"; "myregistry"]] !! i
       = Some cmd ->
       procErr (osOk (invoked world0
                      ++ take i
                           [CommandContext "az"
                              ["login"; "--service-principal"; "-u"; "my-client-id";
                               "-p"; "my-secret"; "--tenant"; "my-tenant"];
                            CommandContext "az"
                              ["acr"; "login"; "--name"; "myregistry"]]) cmd)
       = None.
Proof.
  split; [reflexivity |]. split; [reflexivity |].
  apply (X14_Authenticate_success_means_all_succeeded osOk
           (NewACRClient "myregistry") spAuth world0); reflexivity.
Defined.

(** X15.  A configuration that Validate accepts without errors has a
    method that Authenticate dispatches: on every machine at least one
    login command is started. *)
Theorem X15_validated_method_is_dispatched
    (parser : helpers.ConfigParser) (os : OS)
    (raw : gmap string any) (w : World) :
  plugin.Errors (fst (Validate parser raw)) = [] ->
  exists (cmd : Cmd) (rest : list Cmd),
    invoked (snd (Authenticate os
                    (NewACRClient (Registry (parseConfig parser raw)))
                    (Some (authConfigOf (parseConfig parser raw))) w))
    = invoked w ++ cmd :: rest.
Proof.
  intros H. apply Authenticate_known.
  change (Method (authConfigOf (parseConfig parser raw)))
    with (AuthMethod (parseConfig parser raw)).
  rewrite Validate_errors in H.
  destruct (existsb _ _); [reflexivity |].
  do 3 (apply List.app_eq_nil in H as [_ H]).
  discriminate.
Qed.

Lemma X15_validated_method_is_dispatched_witness :
  plugin.Errors (fst (Validate (helpers.envParser noEnv) rawMinimal)) = []
  /\ exists (cmd : Cmd) (rest : list Cmd),
    invoked (snd (Authenticate osFail
                    (NewACRClient
                       (Registry (parseConfig (helpers.envParser noEnv) rawMinimal)))
                    (Some (authConfigOf
                             (parseConfig (helpers.envParser noEnv) rawMinimal)))
                    world0))
    = invoked world0 ++ cmd :: rest.
Proof.
  split; [vm_compute; reflexivity |].
  apply (X15_validated_method_is_dispatched (helpers.envParser noEnv) osFail
           rawMinimal world0).
  vm_compute; reflexivity.
Defined.

(** ** The publish loop, step by step *)

Section LoopFacts.

Variable os : OS.

Lemma plan_app (cfg : Config) (url : string) (a b : list string) :
  plan cfg url (a ++ b) = plan cfg url a ++ plan cfg url b.
Proof. unfold plan. now rewrite flat_map_app. Qed.

(** The complete account of the loop outside dry-run: at its end every
    kept tag was tagged, pushed and reported; at a failure the tags before
    the failing one were, and the failing command is the last one. *)
Lemma pushImages_live_account (cfg : Config) (url : string) :
  DryRun cfg = false ->
  forall (tags acc : list string) (w : World),
    (forall l, fst (pushImages os cfg url tags acc w) = inr l ->
       l = acc ++ map (targetImage cfg url) (List.filter keep tags)
       /\ invoked (snd (pushImages os cfg url tags acc w))
          = invoked w ++ plan cfg url (List.filter keep tags)
       /\ stdout (snd (pushImages os cfg url tags acc w))
          = stdout w
            ++ map (fun t => "Pushed: " +:+ targetImage cfg url t +:+ nl)
                 (List.filter keep tags))
    /\ (forall e, fst (pushImages os cfg url tags acc w) = inl e ->
        exists (done : list string) (tag : string) (rest : list string),
          List.filter keep tags = done ++ tag :: rest
          /\ stdout (snd (pushImages os cfg url tags acc w))
             = stdout w
               ++ map (fun t => "Pushed: " +:+ targetImage cfg url t +:+ nl) done
          /\ ((invoked (snd (pushImages os cfg url tags acc w))
               = invoked w ++ plan cfg url done
                 ++ [tagCmd (SourceImage cfg) (targetImage cfg url tag)]
               /\ procErr (os (invoked w ++ plan cfg url done)
                             (tagCmd (SourceImage cfg) (targetImage cfg url tag)))
                  <> None
               /\ HasPrefix e "failed to tag image: " = true)
              \/ (invoked (snd (pushImages os cfg url tags acc w))
                  = invoked w ++ plan cfg url done
                    ++ [tagCmd (SourceImage cfg) (targetImage cfg url tag);
                        pushCmd (targetImage cfg url tag)]
                  /\ procErr (os (invoked w ++ plan cfg url done
                                  ++ [tagCmd (SourceImage cfg)
                                        (targetImage cfg url tag)])
                                (pushCmd (targetImage cfg url tag)))
                     <> None
                  /\ HasPrefix e "failed to push image: " = true))).
Proof.
  intros Hlive. induction tags as [|tag rest IH]; intros acc w.
  - cbn [pushImages List.filter map plan flat_map]. unfold ret. cbn [fst snd].
    split; [| discriminate].
    intros l [= <-]. now rewrite !app_nil_r.
  - destruct (keep tag) eqn:K; cycle 1.
    { pose proof K as K'. apply keep_false in K' as ->.
      rewrite pushImages_skip. cbn [List.filter]. rewrite K. apply IH. }
    cbn [List.filter]. rewrite K.
    rewrite (pushImages_step os cfg url tag rest acc w Hlive K).
    set (t := tagCmd (SourceImage cfg) (targetImage cfg url tag)).
    set (p := pushCmd (targetImage cfg url tag)).
    destruct (procErr (os (invoked w) t)) as [e0 |] eqn:Et.
    + cbn [fst snd invoked stdout]. split; [discriminate |].
      intros e [= <-]. exists [], tag, (List.filter keep rest).
      cbn [app map plan flat_map]. rewrite !app_nil_r.
      split; [reflexivity |]. split; [reflexivity |].
      left. split; [reflexivity |]. split; [unfold t in *; congruence |].
      reflexivity.
    + destruct (procErr (os (invoked w ++ [t]) p)) as [e0 |] eqn:Ep.
      * cbn [fst snd invoked stdout]. split; [discriminate |].
        intros e [= <-]. exists [], tag, (List.filter keep rest).
        cbn [app map plan flat_map]. rewrite !app_nil_r.
        split; [reflexivity |]. split; [reflexivity |].
        right. split; [now rewrite <- app_assoc |]. split; [unfold t, p in *; congruence |].
        reflexivity.
      * destruct (IH (acc ++ [targetImage cfg url tag])
                    {| invoked := (invoked w ++ [t]) ++ [p];
                       stdout := stdout w
                                 ++ ["Pushed: " +:+ targetImage cfg url tag +:+ nl] |})
          as [Hok Herr].
        cbn [invoked stdout] in Hok, Herr.
        change (plan cfg url (tag :: List.filter keep rest))
          with (t :: p :: plan cfg url (List.filter keep rest)).
        split.
        -- intros l Hl. destruct (Hok l Hl) as (-> & Hi & Hs).
           rewrite Hi, Hs. cbn [map]. rewrite <- !app_assoc. auto.
        -- intros e He. destruct (Herr e He) as (done & tg & rs & Hf & Hs & Hd).
           exists (tag :: done), tg, rs.
           change (plan cfg url (tag :: done)) with (t :: p :: plan cfg url done).
           rewrite Hf, Hs. cbn [map]. rewrite <- !app_assoc.
           split; [reflexivity |]. split; [reflexivity |].
           rewrite <- !app_assoc in Hd. cbn [app] in Hd |- *.
           exact Hd.
Qed.

Lemma pushImages_dry_stdout (cfg : Config) (url : string) :
  DryRun cfg = true ->
  forall (tags acc : list string) (w : World),
    stdout (snd (pushImages os cfg url tags acc w))
    = stdout w
      ++ flat_map
           (fun tag =>
              ["[dry-run] Would tag " +:+ SourceImage cfg +:+ " as "
               +:+ targetImage cfg url tag +:+ nl;
               "[dry-run] Would push " +:+ targetImage cfg url tag +:+ nl])
           (List.filter keep tags).
Proof.
  intros Hdry. induction tags as [|tag rest IH]; intros acc w.
  - simpl. now rewrite app_nil_r.
  - destruct (keep tag) eqn:K.
    + cbn [pushImages List.filter]. rewrite K, (keep_true _ K), Hdry.
      unfold bind, Printf. cbn [flat_map].
      rewrite IH. cbn [stdout]. now rewrite <- !app_assoc.
    + pose proof K as K'. apply keep_false in K' as ->.
      rewrite pushImages_skip. cbn [List.filter]. rewrite K. apply IH.
Qed.

(** In either mode the list returned at the end holds the target of every
    kept tag. *)
Lemma pushImages_inr (cfg : Config) (url : string)
    (tags acc : list string) (w : World) (l : list string) :
  fst (pushImages os cfg url tags acc w) = inr l ->
  l = acc ++ map (targetImage cfg url) (List.filter keep tags).
Proof.
  intros H. destruct (DryRun cfg) eqn:D.
  - destruct (pushImages_dry os cfg url D tags acc w) as [R _]. congruence.
  - now destruct (proj1 (pushImages_live_account cfg url D tags acc w) l H).
Qed.

End LoopFacts.

(** C1.  With dry-run disabled in both the configuration and the request,
    the commands Execute starts are those of the authentication followed
    by a prefix of the plan -- for each resolved tag in input order its tag
    command and then its push command.  A command that fails is the last
    command started and Execute returns an error: a failing tag command is
    not followed by its push, and no tag or push of a later tag is
    attempted.  The loop stops only there: after a failed authentication
    no tag or push is started; after a successful one, as long as no tag
    or push command fails the whole plan is run and a response is
    returned, and when Execute returns an error the last command started
    is a tag or push command that failed. *)
Theorem C1_Execute_stops_at_first_failure
    (parser : helpers.ConfigParser) (os : OS)
    (req : plugin.ExecuteRequest) (w : World) :
  DryRun (parseConfig parser (plugin.Config req)) || plugin.DryRun req = false ->
  exists authCmds loopCmds : list Cmd,
    invoked (snd (Authenticate os
                    (NewACRClient (Registry (mergedConfig parser req)))
                    (Some (authConfigOf (mergedConfig parser req))) w))
    = invoked w ++ authCmds
    /\ loopCmds `prefix_of`
         plan (mergedConfig parser req)
           (GetRegistryURL (NewACRClient (Registry (mergedConfig parser req))))
           (processTags (Tags (mergedConfig parser req)) (plugin.Context req))
    /\ stopsAtFailure os (fun r => exists e, r = (None, Some e))
         (Execute parser os req) w (authCmds ++ loopCmds)
    /\ (forall resp : plugin.ExecuteResponse,
          fst (Execute parser os req w) = (Some resp, None) ->
          loopCmds
          = plan (mergedConfig parser req)
              (GetRegistryURL (NewACRClient (Registry (mergedConfig parser req))))
              (processTags (Tags (mergedConfig parser req)) (plugin.Context req)))
    /\ (fst (Authenticate os
               (NewACRClient (Registry (mergedConfig parser req)))
               (Some (authConfigOf (mergedConfig parser req))) w) <> None ->
        loopCmds = [])
    /\ (fst (Authenticate os
               (NewACRClient (Registry (mergedConfig parser req)))
               (Some (authConfigOf (mergedConfig parser req))) w) = None ->
        (forall (i : nat) (c : Cmd),
            loopCmds !! i = Some c ->
            procErr (os (invoked w ++ authCmds ++ take i loopCmds) c) = None) ->
        loopCmds
        = plan (mergedConfig parser req)
            (GetRegistryURL (NewACRClient (Registry (mergedConfig parser req))))
            (processTags (Tags (mergedConfig parser req)) (plugin.Context req))
        /\ exists resp : plugin.ExecuteResponse,
             fst (Execute parser os req w) = (Some resp, None))
    /\ (fst (Authenticate os
               (NewACRClient (Registry (mergedConfig parser req)))
               (Some (authConfigOf (mergedConfig parser req))) w) = None ->
        forall e : error,
          fst (Execute parser os req w) = (None, Some e) ->
          exists (before : list Cmd) (c : Cmd),
            loopCmds = before ++ [c]
            /\ procErr (os (invoked w ++ authCmds ++ before) c) <> None).
Proof.
  intros Hlive. rewrite <- DryRun_mergedConfig in Hlive.
  unfold stopsAtFailure. rewrite (Execute_live parser os req w Hlive).
  set (cfg := mergedConfig parser req) in *.
  set (url := GetRegistryURL (NewACRClient (Registry cfg))).
  set (tags := processTags (Tags cfg) (plugin.Context req)).
  destruct (Authenticate_stops os (NewACRClient (Registry cfg))
              (Some (authConfigOf cfg)) w) as (authCmds & Hainv & Hastop).
  destruct (fst (Authenticate os (NewACRClient (Registry cfg))
                   (Some (authConfigOf cfg)) w)) as [err |] eqn:Eauth.
  - exists authCmds, []. rewrite app_nil_r. cbn [fst snd].
    split; [exact Hainv |]. split; [apply prefix_nil |].
    split; [split; [exact Hainv |] |].
    { intros i c Hc Herr. destruct (Hastop i c Hc Herr) as [Hlast _]. eauto. }
    split; [discriminate |]. split; [reflexivity |].
    split; discriminate.
  - set (w1 := snd (Authenticate os (NewACRClient (Registry cfg))
                      (Some (authConfigOf cfg)) w)) in *.
    destruct (pushImages_live os cfg url Hlive tags [] w1)
      as (loopCmds & Hpre & [Hlinv Hlstop] & Hok).
    destruct (pushImages_live_account os cfg url Hlive tags [] w1)
      as [_ Hacc].
    unfold tags in Hpre, Hok, Hacc.
    rewrite filter_keep_processTags in Hpre, Hok.
    fold tags in Hpre, Hok, Hacc.
    assert (Hlast : forall e : error,
               fst (pushImages os cfg url tags [] w1) = inl e ->
               exists (before : list Cmd) (c : Cmd),
                 loopCmds = before ++ [c]
                 /\ procErr (os (invoked w ++ authCmds ++ before) c) <> None).
    { intros e He.
      destruct (Hacc e He) as (done & tag & rest & _ & _ & Hd).
      destruct Hd as [(Hi & Hf & _) | (Hi & Hf & _)];
        rewrite Hlinv in Hi; apply app_inv_head in Hi;
        rewrite Hainv, <- app_assoc in Hf.
      - exists (plan cfg url done), (tagCmd (SourceImage cfg) (targetImage cfg url tag)).
        split; [exact Hi | exact Hf].
      - exists (plan cfg url done
                ++ [tagCmd (SourceImage cfg) (targetImage cfg url tag)]),
          (pushCmd (targetImage cfg url tag)).
        split; [rewrite Hi, <- app_assoc; reflexivity | exact Hf]. }
    exists authCmds, loopCmds. cbn [fst snd].
    split; [exact Hainv |]. split; [exact Hpre |].
    split; [split |].
    + rewrite Hlinv, Hainv. now rewrite <- app_assoc.
    + intros i c Hc Herr.
      destruct (decide (i < length authCmds)) as [Hi | Hi].
      * rewrite lookup_app_l in Hc by exact Hi.
        rewrite take_app_le in Herr by lia.
        destruct (Hastop i c Hc Herr) as [_ Hfail]. congruence.
      * rewrite lookup_app_r in Hc by lia.
        rewrite take_app_ge in Herr by lia.
        destruct (Hlstop (i - length authCmds) c Hc) as [Hl [e He]].
        { rewrite Hainv, <- app_assoc. exact Herr. }
        split; [rewrite length_app; lia |].
        exists e. now rewrite He.
    + split.
      { intros resp Hresp.
        destruct (fst (pushImages _ _ _ _ _ _)) as [e | l] eqn:El;
          [discriminate |]. now apply (Hok l). }
      split; [congruence |]. split.
      * intros _ Hall.
        destruct (fst (pushImages os cfg url tags [] w1)) as [e | l] eqn:El.
        -- destruct (Hlast e eq_refl) as (before & c & Hb & Hf).
           exfalso. apply Hf. rewrite <- (Hall (length before) c).
           ++ rewrite Hb, take_app_length. reflexivity.
           ++ rewrite Hb. apply list_lookup_middle. reflexivity.
        -- split; [now apply (Hok l) | cbn [finish]; eauto].
      * intros _ e He.
        destruct (fst (pushImages os cfg url tags [] w1)) as [e' | l] eqn:El;
          [| discriminate].
        apply (Hlast e'). reflexivity.
Qed.

(** C1 at a two-tag request on a machine where every push fails. *)
Lemma C1_Execute_stops_at_first_failure_witness :
  DryRun (parseConfig (helpers.envParser noEnv) (plugin.Config (reqMinimal false)))
  || plugin.DryRun (reqMinimal false) = false
  /\
  exists authCmds loopCmds : list Cmd,
    invoked (snd (Authenticate osPushFails
                    (NewACRClient (Registry (mergedConfig (helpers.envParser noEnv) (reqMinimal false))))
                    (Some (authConfigOf (mergedConfig (helpers.envParser noEnv) (reqMinimal false)))) world0))
    = invoked world0 ++ authCmds
    /\ loopCmds `prefix_of`
         plan (mergedConfig (helpers.envParser noEnv) (reqMinimal false))
           (GetRegistryURL (NewACRClient (Registry (mergedConfig (helpers.envParser noEnv) (reqMinimal false)))))
           (processTags (Tags (mergedConfig (helpers.envParser noEnv) (reqMinimal false))) (plugin.Context (reqMinimal false)))
    /\ stopsAtFailure osPushFails (fun r => exists e, r = (None, Some e))
         (Execute (helpers.envParser noEnv) osPushFails (reqMinimal false)) world0 (authCmds ++ loopCmds)
    /\ (forall resp : plugin.ExecuteResponse,
          fst (Execute (helpers.envParser noEnv) osPushFails (reqMinimal false) world0) = (Some resp, None) ->
          loopCmds
          = plan (mergedConfig (helpers.envParser noEnv) (reqMinimal false))
              (GetRegistryURL (NewACRClient (Registry (mergedConfig (helpers.envParser noEnv) (reqMinimal false)))))
              (processTags (Tags (mergedConfig (helpers.envParser noEnv) (reqMinimal false))) (plugin.Context (reqMinimal false))))
    /\ (fst (Authenticate osPushFails
               (NewACRClient (Registry (mergedConfig (helpers.envParser noEnv) (reqMinimal false))))
               (Some (authConfigOf (mergedConfig (helpers.envParser noEnv) (reqMinimal false)))) world0) <> None ->
        loopCmds = [])
    /\ (fst (Authenticate osPushFails
               (NewACRClient (Registry (mergedConfig (helpers.envParser noEnv) (reqMinimal false))))
               (Some (authConfigOf (mergedConfig (helpers.envParser noEnv) (reqMinimal false)))) world0) = None ->
        (forall (i : nat) (c : Cmd),
            loopCmds !! i = Some c ->
            procErr (osPushFails (invoked world0 ++ authCmds ++ take i loopCmds) c) = None) ->
        loopCmds
        = plan (mergedConfig (helpers.envParser noEnv) (reqMinimal false))
            (GetRegistryURL (NewACRClient (Registry (mergedConfig (helpers.envParser noEnv) (reqMinimal false)))))
            (processTags (Tags (mergedConfig (helpers.envParser noEnv) (reqMinimal false))) (plugin.Context (reqMinimal false)))
        /\ exists resp : plugin.ExecuteResponse,
             fst (Execute (helpers.envParser noEnv) osPushFails (reqMinimal false) world0) = (Some resp, None))
    /\ (fst (Authenticate osPushFails
               (NewACRClient (Registry (mergedConfig (helpers.envParser noEnv) (reqMinimal false))))
               (Some (authConfigOf (mergedConfig (helpers.envParser noEnv) (reqMinimal false)))) world0) = None ->
        forall e : error,
          fst (Execute (helpers.envParser noEnv) osPushFails (reqMinimal false) world0) = (None, Some e) ->
          exists (before : list Cmd) (c : Cmd),
            loopCmds = before ++ [c]
            /\ procErr (osPushFails (invoked world0 ++ authCmds ++ before) c) <> None).
Proof.
  split; [vm_compute; reflexivity |].
  apply (C1_Execute_stops_at_first_failure (helpers.envParser noEnv) osPushFails
           (reqMinimal false) world0).
  vm_compute; reflexivity.
Defined.

(** ** Execute as a whole *)

Section WholeRun.

Variable parser : helpers.ConfigParser.
Variable os : OS.

Lemma Authenticate_all_succeed (c : ACRClient) (auth : AuthConfig) (w : World) :
  (forall (hist : list Cmd) (cmd : Cmd), procErr (os hist cmd) = None) ->
  existsb (String.eqb (Method auth))
    ["azure_cli"; "service_principal"; "admin"; "managed_identity"; ""] = true ->
  fst (Authenticate os c (Some auth) w) = None.
Proof.
  intros Hall H. unfold Authenticate.
  destruct (String.eqb (Method auth) "azure_cli" || String.eqb (Method auth) "")
    eqn:E1.
  { rewrite authenticateAzureCLI_run. cbn [fst]. now rewrite Hall. }
  apply orb_false_iff in E1 as [E1 E5].
  destruct (String.eqb (Method auth) "service_principal") eqn:E2.
  { rewrite authenticateServicePrincipal_run, Hall, authenticateAzureCLI_run.
    cbn [fst]. now rewrite Hall. }
  destruct (String.eqb (Method auth) "admin") eqn:E3.
  { rewrite authenticateAdmin_run. cbn [fst]. now rewrite Hall. }
  destruct (String.eqb (Method auth) "managed_identity") eqn:E4.
  { rewrite authenticateManagedIdentity_run. cbn [fst]. now rewrite Hall. }
  cbn [existsb] in H. rewrite E1, E2, E3, E4, E5 in H. discriminate.
Qed.

End WholeRun.

(** X16.  Outside dry-run, when authentication fails Execute returns that
    error under the prefix "failed to authenticate with ACR: " and leaves
    the world as the authentication left it: no tag and no push is
    started and nothing is printed. *)
Theorem X16_Execute_authentication_failure
    (parser : helpers.ConfigParser) (os : OS)
    (req : plugin.ExecuteRequest) (w : World) (err : error) :
  DryRun (parseConfig parser (plugin.Config req)) || plugin.DryRun req = false ->
  fst (Authenticate os (NewACRClient (Registry (mergedConfig parser req)))
         (Some (authConfigOf (mergedConfig parser req))) w) = Some err ->
  Execute parser os req w
  = ((None, Some ("failed to authenticate with ACR: " +:+ err)),
     snd (Authenticate os (NewACRClient (Registry (mergedConfig parser req)))
            (Some (authConfigOf (mergedConfig parser req))) w)).
Proof.
  intros Hlive Hauth. rewrite <- DryRun_mergedConfig in Hlive.
  rewrite (Execute_live parser os req w Hlive). now rewrite Hauth.
Qed.

Lemma X16_Execute_authentication_failure_witness :
  DryRun (parseConfig (helpers.envParser noEnv) (plugin.Config (reqMinimal false)))
  || plugin.DryRun (reqMinimal false) = false
  /\ fst (Authenticate osFail
            (NewACRClient
               (Registry (mergedConfig (helpers.envParser noEnv) (reqMinimal false))))
            (Some (authConfigOf
                     (mergedConfig (helpers.envParser noEnv) (reqMinimal false))))
            world0)
     = Some ("az acr login failed: exit status 1" +:+ nl +:+ "no session")
  /\ Execute (helpers.envParser noEnv) osFail (reqMinimal false) world0
     = ((None,
         Some ("failed to authenticate with ACR: "
               +:+ ("az acr login failed: exit status 1" +:+ nl +:+ "no session"))),
        snd (Authenticate osFail
               (NewACRClient
                  (Registry (mergedConfig (helpers.envParser noEnv)
                               (reqMinimal false))))
               (Some (authConfigOf
                        (mergedConfig (helpers.envParser noEnv) (reqMinimal false))))
               world0)).
Proof.
  split; [vm_compute; reflexivity |]. split; [vm_compute; reflexivity |].
  apply (X16_Execute_authentication_failure (helpers.envParser noEnv) osFail
           (reqMinimal false) world0); vm_compute; reflexivity.
Defined.

Lemma Execute_error_or_response
    (parser : helpers.ConfigParser) (os : OS)
    (req : plugin.ExecuteRequest) (w : World) :
  (exists e : error, fst (Execute parser os req w) = (None, Some e))
  \/ fst (Execute parser os req w)
     = (Some (successResponse (mergedConfig parser req)
                (GetRegistryURL (NewACRClient (Registry (mergedConfig parser req))))
                (processTags (Tags (mergedConfig parser req)) (plugin.Context req))
                (map (targetImage (mergedConfig parser req)
                        (GetRegistryURL
                           (NewACRClient (Registry (mergedConfig parser req)))))
                   (processTags (Tags (mergedConfig parser req))
                      (plugin.Context req)))),
        None).
Proof.
  destruct (DryRun (mergedConfig parser req)) eqn:D.
  - right. rewrite (Execute_dry parser os req w D). cbn [fst].
    destruct (pushImages_dry os (mergedConfig parser req)
                (GetRegistryURL (NewACRClient (Registry (mergedConfig parser req))))
                D
                (processTags (Tags (mergedConfig parser req)) (plugin.Context req))
                [] w) as [R _].
    rewrite R, filter_keep_processTags. reflexivity.
  - rewrite (Execute_live parser os req w D).
    destruct (fst (Authenticate _ _ _ _)) as [err |]; [left; eauto |].
    cbn [fst].
    destruct (fst (pushImages _ _ _ _ _ _)) as [e | l] eqn:El; [left; eauto |].
    right. apply pushImages_inr in El.
    rewrite filter_keep_processTags in El. now subst l.
Qed.

(** X17.  In every mode and on every machine Execute returns either an
    error and no response, or no error and the success response whose
    tags are the resolved tags and whose pushed images are the target
    references of all of them, in order. *)
Theorem X17_Execute_error_or_full_response
    (parser : helpers.ConfigParser) (os : OS)
    (req : plugin.ExecuteRequest) (w : World) :
  (exists e : error, fst (Execute parser os req w) = (None, Some e))
  \/ fst (Execute parser os req w)
     = (Some (successResponse (mergedConfig parser req)
                (GetRegistryURL (NewACRClient (Registry (mergedConfig parser req))))
                (processTags (Tags (mergedConfig parser req)) (plugin.Context req))
                (map (targetImage (mergedConfig parser req)
                        (GetRegistryURL
                           (NewACRClient (Registry (mergedConfig parser req)))))
                   (processTags (Tags (mergedConfig parser req))
                      (plugin.Context req)))),
        None).
Proof. apply Execute_error_or_response. Qed.

(** X18.  Whenever Execute returns a response, the response reports
    success, its message counts the resolved tags, and its outputs have
    exactly the keys registry, repository, tags and pushed_images: the
    resolved host, the configured repository, the resolved tags and their
    target references. *)
Theorem X18_Execute_outputs
    (parser : helpers.ConfigParser) (os : OS)
    (req : plugin.ExecuteRequest) (w : World) (resp : plugin.ExecuteResponse) :
  fst (Execute parser os req w) = (Some resp, None) ->
  plugin.Success resp = true
  /\ plugin.Message resp
     = "Successfully pushed "
       +:+ pretty (length (processTags (Tags (mergedConfig parser req))
                             (plugin.Context req)))
       +:+ " image(s) to ACR"
  /\ plugin.Outputs resp !! "registry"
     = Some (AnyString
               (GetRegistryURL (NewACRClient (Registry (mergedConfig parser req)))))
  /\ plugin.Outputs resp !! "repository"
     = Some (AnyString (Repository (mergedConfig parser req)))
  /\ plugin.Outputs resp !! "tags"
     = Some (AnyStrings
               (processTags (Tags (mergedConfig parser req)) (plugin.Context req)))
  /\ plugin.Outputs resp !! "pushed_images"
     = Some (AnyStrings
               (map (targetImage (mergedConfig parser req)
                       (GetRegistryURL
                          (NewACRClient (Registry (mergedConfig parser req)))))
                  (processTags (Tags (mergedConfig parser req))
                     (plugin.Context req))))
  /\ dom (plugin.Outputs resp)
     = ({["registry"; "repository"; "tags"; "pushed_images"]} : gset string).
Proof.
  intros H.
  destruct (Execute_error_or_response parser os req w) as [[e He] | Hr]; [congruence |].
  rewrite Hr in H. injection H as <-.
  unfold successResponse; cbn [plugin.Success plugin.Message plugin.Outputs].
  rewrite length_map.
  repeat split.
Qed.

Lemma X18_Execute_outputs_witness :
  fst (Execute (helpers.envParser noEnv) osOk (reqMinimal false) world0)
  = (Some (successResponse
             (mergedConfig (helpers.envParser noEnv) (reqMinimal false))
             "myregistry.azurecr.io" ["1.0.0"; "latest"]
             ["myregistry.azurecr.io/myapp:1.0.0";
              "myregistry.azurecr.io/myapp:latest"]),
     None)
  /\ plugin.Message
       (successResponse
          (mergedConfig (helpers.envParser noEnv) (reqMinimal false))
          "myregistry.azurecr.io" ["1.0.0"; "latest"]
          ["myregistry.azurecr.io/myapp:1.0.0";
           "myregistry.azurecr.io/myapp:latest"])
     = "Successfully pushed 2 image(s) to ACR"
  /\ plugin.Outputs
       (successResponse
          (mergedConfig (helpers.envParser noEnv) (reqMinimal false))
          "myregistry.azurecr.io" ["1.0.0"; "latest"]
          ["myregistry.azurecr.io/myapp:1.0.0";
           "myregistry.azurecr.io/myapp:latest"]) !! "pushed_images"
     = Some (AnyStrings ["myregistry.azurecr.io/myapp:1.0.0";
                         "myregistry.azurecr.io/myapp:latest"]).
Proof.
  assert (H : fst (Execute (helpers.envParser noEnv) osOk (reqMinimal false) world0)
              = (Some (successResponse
                         (mergedConfig (helpers.envParser noEnv) (reqMinimal false))
                         "myregistry.azurecr.io" ["1.0.0"; "latest"]
                         ["myregistry.azurecr.io/myapp:1.0.0";
                          "myregistry.azurecr.io/myapp:latest"]),
                 None)) by (vm_compute; reflexivity).
  split; [exact H |].
  destruct (X18_Execute_outputs (helpers.envParser noEnv) osOk (reqMinimal false)
              world0 _ H) as (_ & Hm & _ & _ & _ & Hp & _).
  split; [exact Hm | exact Hp].
Defined.

(** X19.  Outside dry-run and after a successful authentication, when
    Execute returns an error the resolved tags split into the tags done,
    the failing tag and the rest: for every tag done both commands ran and
    its "Pushed" line was printed, nothing was started for the rest, and
    the last command started is the one that failed -- the tag command of
    the failing tag, with an error that begins "failed to tag image: ", or
    its push command after its tag command, with an error that begins
    "failed to push image: ". *)
Theorem X19_Execute_progress_before_failure
    (parser : helpers.ConfigParser) (os : OS)
    (req : plugin.ExecuteRequest) (w : World) (e : error) :
  DryRun (parseConfig parser (plugin.Config req)) || plugin.DryRun req = false ->
  fst (Authenticate os (NewACRClient (Registry (mergedConfig parser req)))
         (Some (authConfigOf (mergedConfig parser req))) w) = None ->
  fst (Execute parser os req w) = (None, Some e) ->
  exists (done : list string) (tag : string) (rest : list string),
    processTags (Tags (mergedConfig parser req)) (plugin.Context req)
    = done ++ tag :: rest
    /\ stdout (snd (Execute parser os req w))
       = stdout (snd (Authenticate os
                        (NewACRClient (Registry (mergedConfig parser req)))
                        (Some (authConfigOf (mergedConfig parser req))) w))
         ++ map (fun t =>
                   "Pushed: "
                   +:+ targetImage (mergedConfig parser req)
                         (GetRegistryURL
                            (NewACRClient (Registry (mergedConfig parser req)))) t
                   +:+ nl) done
    /\ ((invoked (snd (Execute parser os req w))
         = invoked (snd (Authenticate os
                           (NewACRClient (Registry (mergedConfig parser req)))
                           (Some (authConfigOf (mergedConfig parser req))) w))
           ++ plan (mergedConfig parser req)
                (GetRegistryURL (NewACRClient (Registry (mergedConfig parser req))))
                done
           ++ [tagCmd (SourceImage (mergedConfig parser req))
                 (targetImage (mergedConfig parser req)
                    (GetRegistryURL
                       (NewACRClient (Registry (mergedConfig parser req)))) tag)]
         /\ procErr
              (os (invoked (snd (Authenticate os
                                   (NewACRClient
                                      (Registry (mergedConfig parser req)))
                                   (Some (authConfigOf (mergedConfig parser req)))
                                   w))
                   ++ plan (mergedConfig parser req)
                        (GetRegistryURL
                           (NewACRClient (Registry (mergedConfig parser req))))
                        done)
                 (tagCmd (SourceImage (mergedConfig parser req))
                    (targetImage (mergedConfig parser req)
                       (GetRegistryURL
                          (NewACRClient (Registry (mergedConfig parser req))))
                       tag)))
            <> None
         /\ HasPrefix e "failed to tag image: " = true)
        \/ (invoked (snd (Execute parser os req w))
            = invoked (snd (Authenticate os
                              (NewACRClient (Registry (mergedConfig parser req)))
                              (Some (authConfigOf (mergedConfig parser req))) w))
              ++ plan (mergedConfig parser req)
                   (GetRegistryURL
                      (NewACRClient (Registry (mergedConfig parser req))))
                   done
              ++ [tagCmd (SourceImage (mergedConfig parser req))
                    (targetImage (mergedConfig parser req)
                       (GetRegistryURL
                          (NewACRClient (Registry (mergedConfig parser req)))) tag);
                  pushCmd
                    (targetImage (mergedConfig parser req)
                       (GetRegistryURL
                          (NewACRClient (Registry (mergedConfig parser req)))) tag)]
            /\ procErr
                 (os (invoked (snd (Authenticate os
                                      (NewACRClient
                                         (Registry (mergedConfig parser req)))
                                      (Some (authConfigOf (mergedConfig parser req)))
                                      w))
                      ++ plan (mergedConfig parser req)
                           (GetRegistryURL
                              (NewACRClient (Registry (mergedConfig parser req))))
                           done
                      ++ [tagCmd (SourceImage (mergedConfig parser req))
                            (targetImage (mergedConfig parser req)
                               (GetRegistryURL
                                  (NewACRClient
                                     (Registry (mergedConfig parser req))))
                               tag)])
                    (pushCmd
                       (targetImage (mergedConfig parser req)
                          (GetRegistryURL
                             (NewACRClient (Registry (mergedConfig parser req))))
                          tag)))
               <> None
            /\ HasPrefix e "failed to push image: " = true)).
Proof.
  intros Hlive Hauth He. rewrite <- DryRun_mergedConfig in Hlive.
  rewrite (Execute_live parser os req w Hlive), Hauth in He |- *.
  cbn [fst snd] in He |- *.
  destruct (fst (pushImages _ _ _ _ _ _)) as [e' | l] eqn:El; [| discriminate].
  injection He as ->.
  destruct (proj2 (pushImages_live_account os _ _ Hlive _ _ _) e El)
    as (done & tag & rest & Hf & Hs & Hd).
  rewrite filter_keep_processTags in Hf.
  exists done, tag, rest. split; [exact Hf |]. split; [exact Hs |].
  exact Hd.
Qed.

Lemma X19_Execute_progress_before_failure_witness :
  exists e : error,
    fst (Execute (helpers.envParser noEnv) osPushFails (reqMinimal false) world0)
    = (None, Some e)
    /\ exists (done : list string) (tag : string) (rest : list string),
      processTags
        (Tags (mergedConfig (helpers.envParser noEnv) (reqMinimal false)))
        (plugin.Context (reqMinimal false))
      = done ++ tag :: rest
      /\ stdout (snd (Execute (helpers.envParser noEnv) osPushFails
                        (reqMinimal false) world0))
         = stdout (snd (Authenticate osPushFails
                          (NewACRClient
                             (Registry (mergedConfig (helpers.envParser noEnv)
                                          (reqMinimal false))))
                          (Some (authConfigOf
                                   (mergedConfig (helpers.envParser noEnv)
                                      (reqMinimal false)))) world0))
           ++ map (fun t =>
                     "Pushed: "
                     +:+ targetImage
                           (mergedConfig (helpers.envParser noEnv) (reqMinimal false))
                           (GetRegistryURL
                              (NewACRClient
                                 (Registry (mergedConfig (helpers.envParser noEnv)
                                              (reqMinimal false))))) t
                     +:+ nl) done.
Proof.
  eexists. split; [vm_compute; reflexivity |].
  destruct (X19_Execute_progress_before_failure (helpers.envParser noEnv)
              osPushFails (reqMinimal false) world0
              ("failed to push image: exit status 1" +:+ nl +:+ "denied"))
    as (done & tag & rest & Hf & Hs & _);
    [vm_compute; reflexivity | vm_compute; reflexivity | vm_compute; reflexivity |].
  exists done, tag, rest. split; [exact Hf | exact Hs].
Defined.

(** X20.  Outside dry-run, with a recognized auth method, on a machine
    where every command succeeds Execute returns the success response
    after running the whole plan -- tag then push for each resolved tag in
    order -- and printing one "Pushed" line per tag. *)
Theorem X20_Execute_succeeds_when_commands_do
    (parser : helpers.ConfigParser) (os : OS)
    (req : plugin.ExecuteRequest) (w : World) :
  (forall (hist : list Cmd) (cmd : Cmd), procErr (os hist cmd) = None) ->
  existsb (String.eqb (AuthMethod (mergedConfig parser req)))
    ["azure_cli"; "service_principal"; "admin"; "managed_identity"; ""] = true ->
  DryRun (parseConfig parser (plugin.Config req)) || plugin.DryRun req = false ->
  snd (fst (Execute parser os req w)) = None
  /\ invoked (snd (Execute parser os req w))
     = invoked (snd (Authenticate os
                       (NewACRClient (Registry (mergedConfig parser req)))
                       (Some (authConfigOf (mergedConfig parser req))) w))
       ++ plan (mergedConfig parser req)
            (GetRegistryURL (NewACRClient (Registry (mergedConfig parser req))))
            (processTags (Tags (mergedConfig parser req)) (plugin.Context req))
  /\ stdout (snd (Execute parser os req w))
     = stdout (snd (Authenticate os
                      (NewACRClient (Registry (mergedConfig parser req)))
                      (Some (authConfigOf (mergedConfig parser req))) w))
       ++ map (fun t =>
                 "Pushed: "
                 +:+ targetImage (mergedConfig parser req)
                       (GetRegistryURL
                          (NewACRClient (Registry (mergedConfig parser req)))) t
                 +:+ nl)
            (processTags (Tags (mergedConfig parser req)) (plugin.Context req)).
Proof.
  intros Hall Hknown Hlive. rewrite <- DryRun_mergedConfig in Hlive.
  rewrite (Execute_live parser os req w Hlive).
  rewrite (Authenticate_all_succeed os _ (authConfigOf (mergedConfig parser req))
             w Hall Hknown).
  cbn [fst snd].
  destruct (pushImages_live_account os (mergedConfig parser req)
              (GetRegistryURL (NewACRClient (Registry (mergedConfig parser req))))
              Hlive
              (processTags (Tags (mergedConfig parser req)) (plugin.Context req))
              []
              (snd (Authenticate os
                      (NewACRClient (Registry (mergedConfig parser req)))
                      (Some (authConfigOf (mergedConfig parser req))) w)))
    as [Hok Herr].
  destruct (fst (pushImages _ _ _ _ _ _)) as [e | l] eqn:El.
  - destruct (Herr e eq_refl) as (done & tag & rest & _ & _ & Hd).
    destruct Hd as [(_ & Hf & _) | (_ & Hf & _)]; now rewrite Hall in Hf.
  - destruct (Hok l eq_refl) as (_ & Hi & Hs).
    rewrite filter_keep_processTags in Hi, Hs. auto.
Qed.

Lemma X20_Execute_succeeds_when_commands_do_witness :
  (forall (hist : list Cmd) (cmd : Cmd), procErr (osOk hist cmd) = None)
  /\ snd (fst (Execute (helpers.envParser noEnv) osOk (reqMinimal false) world0))
     = None
  /\ invoked (snd (Execute (helpers.envParser noEnv) osOk (reqMinimal false) world0))
     = invoked (snd (Authenticate osOk
                       (NewACRClient
                          (Registry (mergedConfig (helpers.envParser noEnv)
                                       (reqMinimal false))))
                       (Some (authConfigOf
                                (mergedConfig (helpers.envParser noEnv)
                                   (reqMinimal false)))) world0))
       ++ plan (mergedConfig (helpers.envParser noEnv) (reqMinimal false))
            (GetRegistryURL
               (NewACRClient
                  (Registry (mergedConfig (helpers.envParser noEnv)
                               (reqMinimal false)))))
            (processTags
               (Tags (mergedConfig (helpers.envParser noEnv) (reqMinimal false)))
               (plugin.Context (reqMinimal false))).
Proof.
  split; [reflexivity |].
  destruct (X20_Execute_succeeds_when_commands_do (helpers.envParser noEnv) osOk
              (reqMinimal false) world0) as (Hr & Hi & _);
    [reflexivity | vm_compute; reflexivity | vm_compute; reflexivity |].
  split; [exact Hr | exact Hi].
Defined.

(** X21.  In dry-run Execute prints, for each resolved tag in order, the
    line of the intended tag command and the line of the intended push,
    and nothing else. *)
Theorem X21_Execute_dry_run_report
    (parser : helpers.ConfigParser) (os : OS)
    (req : plugin.ExecuteRequest) (w : World) :
  DryRun (parseConfig parser (plugin.Config req)) || plugin.DryRun req = true ->
  stdout (snd (Execute parser os req w))
  = stdout w
    ++ flat_map
         (fun tag =>
            ["[dry-run] Would tag " +:+ SourceImage (mergedConfig parser req)
             +:+ " as "
             +:+ targetImage (mergedConfig parser req)
                   (GetRegistryURL
                      (NewACRClient (Registry (mergedConfig parser req)))) tag
             +:+ nl;
             "[dry-run] Would push "
             +:+ targetImage (mergedConfig parser req)
                   (GetRegistryURL
                      (NewACRClient (Registry (mergedConfig parser req)))) tag
             +:+ nl])
         (processTags (Tags (mergedConfig parser req)) (plugin.Context req)).
Proof.
  intros Hdry. rewrite <- DryRun_mergedConfig in Hdry.
  rewrite (Execute_dry parser os req w Hdry). cbn [snd].
  rewrite (pushImages_dry_stdout os _ _ Hdry), filter_keep_processTags.
  reflexivity.
Qed.

Lemma X21_Execute_dry_run_report_witness :
  DryRun (parseConfig (helpers.envParser noEnv) (plugin.Config (reqMinimal true)))
  || plugin.DryRun (reqMinimal true) = true
  /\ stdout (snd (Execute (helpers.envParser noEnv) osFail (reqMinimal true) world0))
     = stdout world0
       ++ flat_map
            (fun tag =>
               ["[dry-run] Would tag "
                +:+ SourceImage (mergedConfig (helpers.envParser noEnv)
                                   (reqMinimal true))
                +:+ " as "
                +:+ targetImage
                      (mergedConfig (helpers.envParser noEnv) (reqMinimal true))
                      (GetRegistryURL
                         (NewACRClient
                            (Registry (mergedConfig (helpers.envParser noEnv)
                                         (reqMinimal true))))) tag
                +:+ nl;
                "[dry-run] Would push "
                +:+ targetImage
                      (mergedConfig (helpers.envParser noEnv) (reqMinimal true))
                      (GetRegistryURL
                         (NewACRClient
                            (Registry (mergedConfig (helpers.envParser noEnv)
                                         (reqMinimal true))))) tag
                +:+ nl])
            (processTags
               (Tags (mergedConfig (helpers.envParser noEnv) (reqMinimal true)))
               (plugin.Context (reqMinimal true))).
Proof.
  split; [vm_compute; reflexivity |].
  apply (X21_Execute_dry_run_report (helpers.envParser noEnv) osFail
           (reqMinimal true) world0).
  vm_compute; reflexivity.
Defined.
